(** * Bounded per-user dialog history: the SQLite store and its in-memory twin

    A shallow embedding of [src/storage/sqlite_history.py]
    ([SQLiteDialogHistory]) and [src/storage/dialog_history.py]
    ([DialogHistory]).

    Modelling conventions.
    - Python [int] is [Z]; Python [str] is the [string] of its UTF-8 bytes
      (a [str] that has no UTF-8 encoding, one holding a lone surrogate, is
      outside the model: sqlite3 refuses to bind it); [str | None] is
      [option string].
    - A raised exception is the left injection of [result]; the store a
      caller is left with after a raise of a method is the store before the
      call (the hint and the assertion are checked before any row or dict
      entry is changed).
    - The SQLite database is the pair of tables of [CREATE_TABLES_SQL]:
      [users] is keyed by its PRIMARY KEY, [messages] is the list of rows in
      rowid order, [sqlite_sequence] is the AUTOINCREMENT counter (the
      largest rowid ever used).  FOREIGN KEY clauses are not enforced: the
      source never issues [PRAGMA foreign_keys = ON].
    - [datetime('now')] and [date('now')] are UTC in SQLite.  A timestamp is
      the number of seconds since the epoch (UTC); the text forms
      ['YYYY-MM-DD HH:MM:SS'] and ['YYYY-MM-DD'] compare as strings exactly as
      the instants they denote, so [created_at >= date('now')] is the
      comparison with the preceding UTC midnight.
    - The store is modelled at two levels.  [SQLiteDialogHistory] holds the
      statements and the methods as SQLite runs them, on [int]s it can hold
      as an INTEGER (signed 64 bits).  The connection ([perform],
      [call_method]) adds what sqlite3 does around a statement: it converts
      the parameters, raising [OverflowError] for an [int] outside that
      range, and it separates what the connection sees from what a commit
      has written to the file.  On [int]s SQLite can hold the two levels
      agree ([call_method_core]); a raise of the connection can leave
      statements of the method executed and uncommitted. *)

From Stdlib Require Import ZArith Ascii String.
From stdpp Require Import gmap strings pretty list sorting.

Local Open Scope Z_scope.

(** ** Exceptions and results *)

Inductive exception :=
| AssertionError                   (* [assert self._db is not None] *)
| BeartypeCallHintParamViolation   (* [@beartype] on a parameter hint *)
| IntegrityError                   (* a CHECK constraint of the schema *)
| OverflowError.                   (* an [int] SQLite cannot hold *)

#[global] Instance exception_eq_dec : EqDecision exception.
Proof. solve_decision. Defined.

Definition result (A : Type) : Type := (exception + A)%type.
Definition Ok {A} (a : A) : result A := inr a.
Definition Raise {A} (e : exception) : result A := inl e.

Definition bind {A B} (r : result A) (k : A → result B) : result B :=
  match r with
  | inl e => inl e
  | inr a => k a
  end.

Notation "'let*' x ':=' r 'in' k" := (bind r (fun x => k))
  (at level 10, x name, r at level 100, k at level 200, only parsing).

(** The parameter hint [role: Literal["user", "assistant"]], checked by
    [@beartype] when the method is called. *)
Definition Literal_user_assistant (role : string) : bool :=
  bool_decide (role = "user"%string) || bool_decide (role = "assistant"%string).

(** The column constraint [CHECK(role IN ('user', 'assistant'))]. *)
Definition CHECK_role (role : string) : bool :=
  bool_decide (role ∈ ["user"%string; "assistant"%string]).

(** The core interface shared by both classes, and what a call answers.
    [get_history] returns a list of dicts with the two keys ["role"] and
    ["content"]; a dict is written as the pair of its two values. *)
Inductive call :=
| AddMessage (user_id : Z) (role content : string)
| GetHistory (user_id : Z)
| Clear (user_id : Z)
| GetMessageCount (user_id : Z).

Inductive response :=
| Returned                                        (* [None] *)
| History (msgs : list (string * string))
| Count (n : Z)
| Raised (e : exception).

#[global] Instance response_eq_dec : EqDecision response.
Proof. solve_decision. Defined.

(** ** SQL building blocks *)

Section SQL.
Context {A : Type}.

(** [ORDER BY key ASC] ([desc = false]) or [DESC] ([desc = true]). *)
Fixpoint order_insert (key : A → Z) (desc : bool) (x : A) (l : list A) : list A :=
  match l with
  | [] => [x]
  | y :: l' =>
      if (if desc then key y <=? key x else key x <=? key y)
      then x :: l
      else y :: order_insert key desc x l'
  end.

Definition order_by (key : A → Z) (desc : bool) (l : list A) : list A :=
  foldr (order_insert key desc) [] l.

(** [LIMIT n]: a negative [n] means no upper bound. *)
Definition limit (n : Z) (l : list A) : list A :=
  if n <? 0 then l else take (Z.to_nat n) l.
End SQL.

(** [date('now')] as an instant: the UTC midnight at or before [now]. *)
Definition sql_date (now : Z) : Z := 86400 * (now / 86400).

(** ** The SQLite-backed store *)

Module SQLiteDialogHistory.

(** Table [users]; the key [user_id] is the key of the map. *)
Record UserRow := {
  u_username : option string;
  u_first_seen : Z;
  u_last_seen : Z
}.

(** Table [messages]. *)
Record MessageRow := {
  m_id : Z;
  m_user_id : Z;
  m_role : string;
  m_content : string;
  m_created_at : Z
}.

Record Database := {
  users : gmap Z UserRow;
  messages : list MessageRow;
  sqlite_sequence : Z
}.

Definition empty_database : Database :=
  {| users := ∅; messages := []; sqlite_sequence := 0 |}.

Record t := {
  _max_messages : Z;
  _db : option Database
}.

Definition __init__ (max_messages : Z) : t :=
  {| _max_messages := max_messages; _db := None |}.

(** [init]: connect and run [CREATE TABLE IF NOT EXISTS]; [file] is what
    the database file holds, if it exists. *)
Definition init (self : t) (file : option Database) : t :=
  {| _max_messages := _max_messages self;
     _db := Some (default empty_database file) |}.

Definition close (self : t) : t :=
  {| _max_messages := _max_messages self; _db := None |}.

Definition connection (self : t) : result Database :=
  match _db self with
  | Some db => Ok db
  | None => Raise AssertionError
  end.

Definition with_db (self : t) (db : Database) : t :=
  {| _max_messages := _max_messages self; _db := Some db |}.

(** *** The statements *)

(** [INSERT INTO users ... ON CONFLICT(user_id) DO UPDATE SET
    username = COALESCE(excluded.username, users.username),
    last_seen = datetime('now')]. *)
Definition COALESCE (a b : option string) : option string :=
  match a with
  | Some x => Some x
  | None => b
  end.

Definition upsert_users (now user_id : Z) (username : option string)
    (db : Database) : Database :=
  let row :=
    match users db !! user_id with
    | None =>
        {| u_username := username; u_first_seen := now; u_last_seen := now |}
    | Some old =>
        {| u_username := COALESCE username (u_username old);
           u_first_seen := u_first_seen old;
           u_last_seen := now |}
    end in
  {| users := <[user_id := row]> (users db);
     messages := messages db;
     sqlite_sequence := sqlite_sequence db |}.

(** [INSERT INTO messages (user_id, role, content) VALUES (?, ?, ?)]:
    the rowid is AUTOINCREMENT, [created_at] defaults to
    [datetime('now')], and [CHECK(role IN ('user', 'assistant'))] guards
    the row. *)
Definition insert_message (now user_id : Z) (role content : string)
    (db : Database) : result Database :=
  if CHECK_role role then
    let rowid := sqlite_sequence db + 1 in
    Ok {| users := users db;
          messages := messages db ++
            [{| m_id := rowid; m_user_id := user_id; m_role := role;
                m_content := content; m_created_at := now |}];
          sqlite_sequence := rowid |}
  else Raise IntegrityError.

(** [SELECT id FROM messages WHERE user_id = ? ORDER BY id DESC LIMIT ?]. *)
Definition select_recent_ids (user_id n : Z) (db : Database) : list Z :=
  m_id <$> limit n
    (order_by m_id true (filter (λ m, m_user_id m = user_id) (messages db))).

(** [DELETE FROM messages WHERE user_id = ? AND id NOT IN (...)]. *)
Definition delete_old_messages (user_id n : Z) (db : Database) : Database :=
  let recent := select_recent_ids user_id n db in
  {| users := users db;
     messages :=
       filter (λ m, ¬ (m_user_id m = user_id ∧ m_id m ∉ recent)) (messages db);
     sqlite_sequence := sqlite_sequence db |}.

(** [SELECT role, content FROM messages WHERE user_id = ? ORDER BY id ASC]:
    the rows, before the projection to the two columns. *)
Definition select_history_rows (user_id : Z) (db : Database) : list MessageRow :=
  order_by m_id false (filter (λ m, m_user_id m = user_id) (messages db)).

(** [DELETE FROM messages WHERE user_id = ?]. *)
Definition delete_messages (user_id : Z) (db : Database) : Database :=
  {| users := users db;
     messages := filter (λ m, ¬ (m_user_id m = user_id)) (messages db);
     sqlite_sequence := sqlite_sequence db |}.

(** [SELECT COUNT( * ) FROM messages WHERE user_id = ?]. *)
Definition count_messages (user_id : Z) (db : Database) : Z :=
  Z.of_nat (length (filter (λ m, m_user_id m = user_id) (messages db))).

(** *** The methods *)

Definition upsert_user (self : t) (now user_id : Z) (username : option string)
    : result t :=
  let* db := connection self in
  Ok (with_db self (upsert_users now user_id username db)).

Definition add_message (self : t) (now user_id : Z) (role content : string)
    : result t :=
  if Literal_user_assistant role then
    let* db := connection self in
    let* db := insert_message now user_id role content db in
    let db := delete_old_messages user_id (_max_messages self) db in
    Ok (with_db self db)
  else Raise BeartypeCallHintParamViolation.

Definition get_history (self : t) (user_id : Z) : result (list (string * string)) :=
  let* db := connection self in
  Ok ((λ m, (m_role m, m_content m)) <$> select_history_rows user_id db).

Definition clear (self : t) (user_id : Z) : result t :=
  let* db := connection self in
  Ok (with_db self (delete_messages user_id db)).

Definition get_message_count (self : t) (user_id : Z) : result Z :=
  let* db := connection self in
  Ok (count_messages user_id db).

(** [SELECT user_id FROM users]: a scan of the table, which SQLite keeps
    in the order of its INTEGER PRIMARY KEY. *)
Definition get_all_user_ids (self : t) : result (list Z) :=
  let* db := connection self in
  Ok (order_by (λ user_id, user_id) false ((map_to_list (users db)).*1)).

(** The dict returned by [get_stats], one field per key. *)
Record Stats := {
  total_users : Z;
  total_messages : Z;
  user_messages : Z;
  active_today : Z
}.

Definition get_stats (self : t) (now : Z) : result Stats :=
  let* db := connection self in
  Ok {| total_users := Z.of_nat (size (users db));
        total_messages := Z.of_nat (length (messages db));
        user_messages :=
          Z.of_nat (length (filter (λ m, m_role m = "user"%string) (messages db)));
        active_today :=
          Z.of_nat (length (remove_dups
            (m_user_id <$> filter (λ m, sql_date now ≤ m_created_at m) (messages db)))) |}.

(** One call of the core interface at time [now]: what it answers and
    the store after. *)
Definition step (now : Z) (c : call) (self : t) : response * t :=
  match c with
  | AddMessage user_id role content =>
      match add_message self now user_id role content with
      | inr self' => (Returned, self')
      | inl e => (Raised e, self)
      end
  | GetHistory user_id =>
      match get_history self user_id with
      | inr l => (History l, self)
      | inl e => (Raised e, self)
      end
  | Clear user_id =>
      match clear self user_id with
      | inr self' => (Returned, self')
      | inl e => (Raised e, self)
      end
  | GetMessageCount user_id =>
      match get_message_count self user_id with
      | inr n => (Count n, self)
      | inl e => (Raised e, self)
      end
  end.

Fixpoint responses (cs : list (Z * call)) (self : t) : list response :=
  match cs with
  | [] => []
  | (now, c) :: cs' =>
      let '(r, self') := step now c self in r :: responses cs' self'
  end.

(** Everything a caller can do to the store: the core interface and
    [upsert_user]. *)
Inductive request :=
| Upsert (user_id : Z) (username : option string)
| Core (c : call).

Definition apply (self : t) (timed : Z * request) : t :=
  match timed.2 with
  | Upsert user_id username =>
      match upsert_user self timed.1 user_id username with
      | inr self' => self'
      | inl _ => self
      end
  | Core c => (step timed.1 c self).2
  end.

Definition run (trace : list (Z * request)) (self : t) : t :=
  foldl apply self trace.

(** A store as [main] sets it up: constructed, then [init] on a location
    with no database file yet. *)
Definition fresh (max_messages : Z) : t := init (__init__ max_messages) None.

Definition core_calls (trace : list (Z * request)) : list call :=
  omap (λ timed, match timed.2 with Core c => Some c | Upsert _ _ => None end) trace.

(** What PRIMARY KEY AUTOINCREMENT maintains: rowids strictly increase
    along the table and never exceed the counter. *)
Definition increasing_ids (l : list MessageRow) : Prop :=
  StronglySorted (λ a b, m_id a < m_id b) l.

Record wf (db : Database) : Prop := {
  wf_increasing : increasing_ids (messages db);
  wf_sequence : Forall (λ m, m_id m ≤ sqlite_sequence db) (messages db)
}.

(** *** Coroutines on the shared connection

    Every method is [async]: each [await self._db.execute(...)] and
    [await self._db.commit()] hands control back to the event loop, and
    the connection runs the awaited statements one at a time, in the order
    they were issued.  A method call in flight is the list of statements
    it has still to await. *)
Inductive statement :=
| InsertMessage (now user_id : Z) (role content : string)
| DeleteOldMessages (user_id n : Z)
| SelectHistory (user_id : Z)
| DeleteMessages (user_id : Z)
| SelectCount (user_id : Z)
| Commit.

Definition execute (st : statement) (db : Database) : result (Database * response) :=
  match st with
  | InsertMessage now user_id role content =>
      let* db := insert_message now user_id role content db in Ok (db, Returned)
  | DeleteOldMessages user_id n => Ok (delete_old_messages user_id n db, Returned)
  | SelectHistory user_id =>
      Ok (db, History ((λ m, (m_role m, m_content m)) <$> select_history_rows user_id db))
  | DeleteMessages user_id => Ok (delete_messages user_id db, Returned)
  | SelectCount user_id => Ok (db, Count (count_messages user_id db))
  | Commit => Ok (db, Returned)
  end.

Definition coroutine (max_messages now : Z) (c : call) : list statement :=
  match c with
  | AddMessage user_id role content =>
      if Literal_user_assistant role
      then [InsertMessage now user_id role content;
            DeleteOldMessages user_id max_messages;
            Commit]
      else []
  | GetHistory user_id => [SelectHistory user_id]
  | Clear user_id => [DeleteMessages user_id; Commit]
  | GetMessageCount user_id => [SelectCount user_id]
  end.

Record loop := {
  conn : Database;
  tasks : list (list statement);
  observed : list (nat * response)
}.

(** The event loop resumes task [i]: its next statement runs on the
    connection; a raise ends the task. *)
Definition resume (cfg : loop) (i : nat) : loop :=
  match tasks cfg !! i with
  | Some (st :: rest) =>
      match execute st (conn cfg) with
      | inr (db, r) =>
          {| conn := db;
             tasks := <[i := rest]> (tasks cfg);
             observed := observed cfg ++ [(i, r)] |}
      | inl e =>
          {| conn := conn cfg;
             tasks := <[i := []]> (tasks cfg);
             observed := observed cfg ++ [(i, Raised e)] |}
      end
  | _ => cfg
  end.

Definition schedule (order : list nat) (cfg : loop) : loop :=
  foldl resume cfg order.

Definition spawn (max_messages : Z) (cs : list (Z * call)) (db : Database) : loop :=
  {| conn := db;
     tasks := (λ timed, coroutine max_messages timed.1 timed.2) <$> cs;
     observed := [] |}.

(** A task that has run its INSERT for [user_id] and not yet its DELETE. *)
Definition awaiting_trim (user_id : Z) (task : list statement) : bool :=
  match task with
  | DeleteOldMessages v _ :: _ => bool_decide (v = user_id)
  | _ => false
  end.

Definition in_flight (user_id : Z) (pool : list (list statement)) : Z :=
  Z.of_nat (length (filter (λ task, awaiting_trim user_id task = true) pool)).

End SQLiteDialogHistory.

(** ** The in-memory store *)

(** [l[start:]] for a Python list: a negative [start] counts from the end,
    and either way the bound is clamped to the list. *)
Definition slice_from {A} (start : Z) (l : list A) : list A :=
  let len := Z.of_nat (length l) in
  let i := if start <? 0 then Z.max (start + len) 0 else Z.min start len in
  drop (Z.to_nat i) l.

Module DialogHistory.

Record Message := {
  role : string;
  content : string
}.

Record t := {
  max_messages : Z;
  _history : gmap Z (list Message)
}.

Definition __init__ (max_messages : Z) : t :=
  {| max_messages := max_messages; _history := ∅ |}.

(** [self._history[user_id]] on a [defaultdict(list)]: a missing key is
    first bound to a new empty list. *)
Definition getitem (h : gmap Z (list Message)) (user_id : Z)
    : list Message * gmap Z (list Message) :=
  match h !! user_id with
  | Some l => (l, h)
  | None => ([], <[user_id := []]> h)
  end.

Definition with_history (self : t) (h : gmap Z (list Message)) : t :=
  {| max_messages := max_messages self; _history := h |}.

(** [messages.append] changes the list held by the dict, so the entry of
    [user_id] is rebound to the longer list before the length test. *)
Definition add_message (self : t) (user_id : Z) (role content : string)
    : result t :=
  if Literal_user_assistant role then
    let '(messages, h) := getitem (_history self) user_id in
    let messages := messages ++ [{| role := role; content := content |}] in
    let h := <[user_id := messages]> h in
    if Z.of_nat (length messages) >? max_messages self
    then Ok (with_history self
               (<[user_id := slice_from (- max_messages self) messages]> h))
    else Ok (with_history self h)
  else Raise BeartypeCallHintParamViolation.

Definition get_history (self : t) (user_id : Z)
    : list (string * string) * t :=
  let '(messages, h) := getitem (_history self) user_id in
  ((λ msg, (role msg, content msg)) <$> messages, with_history self h).

Definition clear (self : t) (user_id : Z) : t :=
  with_history self (<[user_id := []]> (_history self)).

Definition get_message_count (self : t) (user_id : Z) : Z * t :=
  let '(messages, h) := getitem (_history self) user_id in
  (Z.of_nat (length messages), with_history self h).

(** One call of the core interface: what it answers and the store after. *)
Definition step (c : call) (self : t) : response * t :=
  match c with
  | AddMessage user_id role content =>
      match add_message self user_id role content with
      | inr self' => (Returned, self')
      | inl e => (Raised e, self)
      end
  | GetHistory user_id =>
      let '(l, self') := get_history self user_id in (History l, self')
  | Clear user_id => (Returned, clear self user_id)
  | GetMessageCount user_id =>
      let '(n, self') := get_message_count self user_id in (Count n, self')
  end.

Fixpoint responses (cs : list call) (self : t) : list response :=
  match cs with
  | [] => []
  | c :: cs' => let '(r, self') := step c self in r :: responses cs' self'
  end.

Fixpoint run (cs : list call) (self : t) : t :=
  match cs with
  | [] => self
  | c :: cs' => run cs' (step c self).2
  end.

End DialogHistory.


(** ** Reference notions the properties are stated against *)

(** The messages accepted for [user_id] since its last [clear], oldest
    first, as a sequence of calls of the core interface leaves them. *)
Definition log_step (user_id : Z) (acc : list (string * string)) (c : call)
    : list (string * string) :=
  match c with
  | AddMessage v role content =>
      if decide (v = user_id)
      then if Literal_user_assistant role then acc ++ [(role, content)] else acc
      else acc
  | Clear v => if decide (v = user_id) then [] else acc
  | GetHistory _ | GetMessageCount _ => acc
  end.

Definition insertion_log (user_id : Z) (cs : list call) : list (string * string) :=
  foldl (log_step user_id) [] cs.

(** The last [n] elements of a list ([n] not negative). *)
Definition keep_last {A} (n : Z) (l : list A) : list A :=
  drop (length l - Z.to_nat n) l.

(** What [LIMIT n] over [ORDER BY id DESC] retains of a table in rowid
    order. *)
Definition window {A} (n : Z) (l : list A) : list A :=
  if n <? 0 then l else keep_last n l.



(** The rows of one user, in table order. *)
Definition user_rows (user_id : Z) (db : SQLiteDialogHistory.Database)
    : list SQLiteDialogHistory.MessageRow :=
  filter (λ m, SQLiteDialogHistory.m_user_id m = user_id)
    (SQLiteDialogHistory.messages db).

(** The two columns [get_history] selects. *)
Definition role_content (m : SQLiteDialogHistory.MessageRow) : string * string :=
  (SQLiteDialogHistory.m_role m, SQLiteDialogHistory.m_content m).

(** What holds of a store that was set up with [max_messages] and has
    served the calls of [trace]: it is open, its table is well formed, and
    every user's rows are the window over that user's log. *)
Definition store_inv (max_messages : Z)
    (trace : list (Z * SQLiteDialogHistory.request))
    (self : SQLiteDialogHistory.t) : Prop :=
  SQLiteDialogHistory._max_messages self = max_messages ∧
  ∃ db,
    SQLiteDialogHistory._db self = Some db ∧
    SQLiteDialogHistory.wf db ∧
    ∀ user_id,
      role_content <$> user_rows user_id db
      = window max_messages
          (insertion_log user_id (SQLiteDialogHistory.core_calls trace)).

(** The list the in-memory store holds for one user (none is the empty
    list of the [defaultdict]), and the dict [get_history] makes of a
    message. *)
Definition entries (user_id : Z) (self : DialogHistory.t)
    : list DialogHistory.Message :=
  default [] (DialogHistory._history self !! user_id).

Definition msg_pair (msg : DialogHistory.Message) : string * string :=
  (DialogHistory.role msg, DialogHistory.content msg).

(** The in-memory list after [append] and the length test of
    [add_message]. *)
Definition trimmed {A} (max_messages : Z) (l : list A) : list A :=
  if Z.of_nat (length l) >? max_messages
  then slice_from (- max_messages) l
  else l.

(** The simulation relation between the two stores: same limit, an open
    and well-formed database, and user by user the same messages in the
    same order. *)
Definition sim (max_messages : Z) (s : SQLiteDialogHistory.t)
    (m : DialogHistory.t) : Prop :=
  SQLiteDialogHistory._max_messages s = max_messages ∧
  DialogHistory.max_messages m = max_messages ∧
  ∃ db,
    SQLiteDialogHistory._db s = Some db ∧
    SQLiteDialogHistory.wf db ∧
    ∀ user_id,
      role_content <$> user_rows user_id db = msg_pair <$> entries user_id m.

(** A task is a method call of a store with limit [max_messages], at one
    of its await points. *)
Definition task_ok (max_messages : Z)
    (task : list SQLiteDialogHistory.statement) : Prop :=
  match task with
  | [] => True
  | [SQLiteDialogHistory.Commit] => True
  | [SQLiteDialogHistory.DeleteOldMessages _ n; SQLiteDialogHistory.Commit] =>
      n = max_messages
  | [SQLiteDialogHistory.InsertMessage _ u _ _;
     SQLiteDialogHistory.DeleteOldMessages v n;
     SQLiteDialogHistory.Commit] => v = u ∧ n = max_messages
  | [SQLiteDialogHistory.SelectHistory _] => True
  | [SQLiteDialogHistory.SelectCount _] => True
  | [SQLiteDialogHistory.DeleteMessages _; SQLiteDialogHistory.Commit] => True
  | _ => False
  end.

(** What the event loop maintains however it orders the tasks. *)
Definition loop_inv (max_messages : Z) (cfg : SQLiteDialogHistory.loop) : Prop :=
  SQLiteDialogHistory.wf (SQLiteDialogHistory.conn cfg) ∧
  Forall (task_ok max_messages) (SQLiteDialogHistory.tasks cfg) ∧
  ∀ user_id,
    SQLiteDialogHistory.count_messages user_id (SQLiteDialogHistory.conn cfg)
    ≤ max_messages
      + SQLiteDialogHistory.in_flight user_id (SQLiteDialogHistory.tasks cfg).





(** A task run to its end with nothing scheduled in between: the database
    it leaves, or the exception that ended it. *)
Fixpoint run_task (task : list SQLiteDialogHistory.statement)
    (db : SQLiteDialogHistory.Database) : result SQLiteDialogHistory.Database :=
  match task with
  | [] => Ok db
  | st :: rest =>
      match SQLiteDialogHistory.execute st db with
      | inr (db', _) => run_task rest db'
      | inl e => Raise e
      end
  end.






(** A role the schema and the parameter hint accept. *)
Definition chat_role (role : string) : Prop :=
  role = "user"%string ∨ role = "assistant"%string.

(** The user a call of the core interface is about. *)
Definition call_user (c : call) : Z :=
  match c with
  | AddMessage user_id _ _ => user_id
  | GetHistory user_id => user_id
  | Clear user_id => user_id
  | GetMessageCount user_id => user_id
  end.

(** The users that have a stored message. *)
Definition message_users (db : SQLiteDialogHistory.Database) : gset Z :=
  list_to_set (SQLiteDialogHistory.m_user_id <$> SQLiteDialogHistory.messages db).

(** The two reads of the core interface. *)
Definition is_read (c : call) : bool :=
  match c with
  | GetHistory _ | GetMessageCount _ => true
  | AddMessage _ _ _ | Clear _ => false
  end.

(** Two in-memory stores that hold the same limit and, user by user, the
    same list; they may differ in the keys bound to an empty list. *)
Definition mem_equiv (m1 m2 : DialogHistory.t) : Prop :=
  DialogHistory.max_messages m1 = DialogHistory.max_messages m2 ∧
  ∀ user_id, entries user_id m1 = entries user_id m2.

(** The log of a user as the statements of interleaved calls ran: an
    accepted INSERT appends to it, the DELETE of [clear] empties it. *)
Definition statement_log (user_id : Z) (acc : list (string * string))
    (st : SQLiteDialogHistory.statement) : list (string * string) :=
  match st with
  | SQLiteDialogHistory.InsertMessage _ v role content =>
      if decide (v = user_id)
      then if CHECK_role role then acc ++ [(role, content)] else acc
      else acc
  | SQLiteDialogHistory.DeleteMessages v =>
      if decide (v = user_id) then [] else acc
  | _ => acc
  end.

Fixpoint scheduled_log (user_id : Z) (order : list nat)
    (cfg : SQLiteDialogHistory.loop) (acc : list (string * string))
    : list (string * string) :=
  match order with
  | [] => acc
  | i :: order' =>
      scheduled_log user_id order' (SQLiteDialogHistory.resume cfg i)
        match SQLiteDialogHistory.tasks cfg !! i with
        | Some (st :: _) => statement_log user_id acc st
        | _ => acc
        end
  end.

(** What relates a user's rows on the connection to that log while calls
    are in flight. *)
Definition log_inv (max_messages user_id : Z) (cfg : SQLiteDialogHistory.loop)
    (log : list (string * string)) : Prop :=
  role_content <$> user_rows user_id (SQLiteDialogHistory.conn cfg) `suffix_of` log ∧
  Z.min max_messages (Z.of_nat (length log))
  ≤ Z.of_nat (length (user_rows user_id (SQLiteDialogHistory.conn cfg))).

(** The database file under interleaved calls.  A [commit] is the
    connection's: the commit a task awaits writes what the connection
    holds when it runs, whichever calls executed it. *)
Fixpoint committed (order : list nat) (cfg : SQLiteDialogHistory.loop)
    (file : SQLiteDialogHistory.Database) : SQLiteDialogHistory.Database :=
  match order with
  | [] => file
  | i :: order' =>
      committed order' (SQLiteDialogHistory.resume cfg i)
        match SQLiteDialogHistory.tasks cfg !! i with
        | Some (SQLiteDialogHistory.Commit :: _) => SQLiteDialogHistory.conn cfg
        | _ => file
        end
  end.

(** ** The connection: parameters, statements and commits

    [await self._db.execute(sql, parameters)] first converts the
    parameters: sqlite3 binds a Python [int] as a SQLite INTEGER, a signed
    64-bit value, and raises [OverflowError] for an int outside that range,
    before the statement runs.  The connection works on its own view of
    the database; [commit] writes the view to the file, and [close]
    without a commit drops what the view holds beyond the file.  Nothing
    rolls back what a method has executed when a later statement of it
    raises. *)
Definition INTEGER (z : Z) : bool := (- 2 ^ 63 <=? z) && (z <? 2 ^ 63).

Arguments INTEGER : simpl never.

(** [upsert_user] awaits its INSERT and a commit, the other methods the
    statements of [coroutine]. *)
Inductive operation :=
| Statement (st : SQLiteDialogHistory.statement)
| UpsertUsers (now user_id : Z) (username : option string).

(** The [int]s among the parameters of an operation, in the order of its
    question marks. *)
Definition parameters (op : operation) : list Z :=
  match op with
  | Statement (SQLiteDialogHistory.InsertMessage _ user_id _ _) => [user_id]
  | Statement (SQLiteDialogHistory.DeleteOldMessages user_id n) =>
      [user_id; user_id; n]
  | Statement (SQLiteDialogHistory.SelectHistory user_id) => [user_id]
  | Statement (SQLiteDialogHistory.DeleteMessages user_id) => [user_id]
  | Statement (SQLiteDialogHistory.SelectCount user_id) => [user_id]
  | Statement SQLiteDialogHistory.Commit => []
  | UpsertUsers _ user_id _ => [user_id]
  end.

Record session := {
  view : SQLiteDialogHistory.Database;
  file : SQLiteDialogHistory.Database
}.

Definition perform (op : operation) (s : session) : result (session * response) :=
  if forallb INTEGER (parameters op) then
    match op with
    | Statement SQLiteDialogHistory.Commit =>
        Ok ({| view := view s; file := view s |}, Returned)
    | Statement st =>
        let* out := SQLiteDialogHistory.execute st (view s) in
        Ok ({| view := out.1; file := file s |}, out.2)
    | UpsertUsers now user_id username =>
        Ok ({| view := SQLiteDialogHistory.upsert_users now user_id username (view s);
               file := file s |}, Returned)
    end
  else Raise OverflowError.

(** The operations of one method call, awaited in order.  What the last
    one gave is what the method returns ([None] after a commit, the rows
    of its SELECT); a raise ends the call with the session as it stands. *)
Fixpoint perform_all (ops : list operation) (r : response) (s : session)
    : response * session :=
  match ops with
  | [] => (r, s)
  | op :: rest =>
      match perform op s with
      | inr (s', r') => perform_all rest r' s'
      | inl e => (Raised e, s)
      end
  end.

Definition operations (max_messages : Z)
    (timed : Z * SQLiteDialogHistory.request) : list operation :=
  match timed.2 with
  | SQLiteDialogHistory.Upsert user_id username =>
      [UpsertUsers timed.1 user_id username; Statement SQLiteDialogHistory.Commit]
  | SQLiteDialogHistory.Core c =>
      Statement <$> SQLiteDialogHistory.coroutine max_messages timed.1 c
  end.

(** A method call on an open connection: the parameter hint of
    [add_message] is checked first, then the operations are awaited. *)
Definition call_method (max_messages : Z) (s : session)
    (timed : Z * SQLiteDialogHistory.request) : response * session :=
  match timed.2 with
  | SQLiteDialogHistory.Core (AddMessage _ role _) =>
      if Literal_user_assistant role
      then perform_all (operations max_messages timed) Returned s
      else (Raised BeartypeCallHintParamViolation, s)
  | _ => perform_all (operations max_messages timed) Returned s
  end.

Definition run_methods (max_messages : Z)
    (trace : list (Z * SQLiteDialogHistory.request)) (s : session) : session :=
  foldl (λ s timed, (call_method max_messages s timed).2) s trace.

(** What the calls of the core interface answer, one after the other. *)
Fixpoint answers (max_messages : Z) (cs : list (Z * call)) (s : session)
    : list response :=
  match cs with
  | [] => []
  | (now, c) :: cs' =>
      let '(r, s') := call_method max_messages s (now, SQLiteDialogHistory.Core c) in
      r :: answers max_messages cs' s'
  end.

(** [init] on a location with no file: the tables are created and
    committed. *)
Definition opened : session :=
  {| view := SQLiteDialogHistory.empty_database;
     file := SQLiteDialogHistory.empty_database |}.

(** The user a request is about, and the requests of a trace whose user
    id SQLite can hold. *)
Definition request_user (r : SQLiteDialogHistory.request) : Z :=
  match r with
  | SQLiteDialogHistory.Upsert user_id _ => user_id
  | SQLiteDialogHistory.Core c => call_user c
  end.

Definition bindable (trace : list (Z * SQLiteDialogHistory.request))
    : list (Z * SQLiteDialogHistory.request) :=
  filter (λ timed, INTEGER (request_user timed.2) = true) trace.

(** ** The message log of [src/services/history_logger.py]

    The pure part of [HistoryLogger.log_message]: the line it appends and
    the name of the file it appends to.  A [str] is its UTF-8 bytes; LF and
    CR are single bytes that occur in no other character's encoding, so
    replacing them byte by byte is [str.replace]. *)
Module HistoryLogger.

Definition LF : ascii := "010"%char.
Definition CR : ascii := "013"%char.

(** [s.replace(old, new)] for one-character [old] and [new]. *)
Fixpoint replace (old new : ascii) (s : string) : string :=
  match s with
  | EmptyString => EmptyString
  | String c s' =>
      String (if decide (c = old) then new else c) (replace old new s')
  end.

(** [text.replace("\n", " ").replace("\r", " ")]. *)
Definition safe_text (text : string) : string :=
  replace CR " " (replace LF " " text).

(** [f"{timestamp}, {safe_text}\n"]. *)
Definition log_entry (timestamp text : string) : string :=
  timestamp +:+ ", " +:+ safe_text text +:+ String LF EmptyString.

(** [f"{username} - {user_id}.txt" if username else f"{user_id}.txt"]:
    [None] and the empty string are both falsy. *)
Definition filename (username : option string) (user_id : Z) : string :=
  match username with
  | Some (String c name) => String c name +:+ " - " +:+ pretty user_id +:+ ".txt"
  | Some EmptyString | None => pretty user_id +:+ ".txt"
  end.

(** How often a character occurs in a string. *)
Fixpoint occurrences (c : ascii) (s : string) : nat :=
  match s with
  | EmptyString => 0
  | String c' s' => (if decide (c' = c) then 1 else 0) + occurrences c s'
  end.

End HistoryLogger.

(** * Properties *)

(** ** Ordered lists *)

Section ordered.
Context {A : Type} (key : A → Z).

#[local] Abbreviation increasing := (StronglySorted (λ a b, key a < key b)).

Lemma increasing_filter (P : A → Prop) `{!∀ x, Decision (P x)} l :
  increasing l → increasing (filter P l).
Proof.
  induction 1 as [|x l Hl IH Hx]; [constructor|].
  rewrite filter_cons. case_decide; [|done].
  constructor; [done|].
  apply Forall_forall. intros y [_ Hy]%list_elem_of_filter.
  by eapply Forall_forall in Hx.
Qed.

Lemma increasing_snoc l x :
  increasing l → Forall (λ y, key y < key x) l → increasing (l ++ [x]).
Proof.
  intros Hl Hx. induction Hl as [|y l Hl IH Hy]; simpl.
  - repeat constructor.
  - inversion_clear Hx as [|? ? Hyx Hlx]. constructor; [by apply IH|].
    apply Forall_app. split; [done|]. by repeat constructor.
Qed.

Lemma order_insert_asc_front x l :
  Forall (λ y, key x < key y) l → order_insert key false x l = x :: l.
Proof.
  destruct 1 as [|y l Hy _]; [done|]. simpl.
  by rewrite (proj2 (Z.leb_le _ _)) by lia.
Qed.

Lemma order_insert_desc_back x l :
  Forall (λ y, key x < key y) l → order_insert key true x l = l ++ [x].
Proof.
  induction 1 as [|y l Hy _ IH]; [done|]. simpl.
  rewrite (proj2 (Z.leb_gt _ _)) by lia. by rewrite IH.
Qed.

Lemma order_by_asc_increasing l :
  increasing l → order_by key false l = l.
Proof.
  induction 1 as [|x l Hl IH Hx]; [done|].
  unfold order_by in *. simpl. rewrite IH. by apply order_insert_asc_front.
Qed.

Lemma order_by_desc_increasing l :
  increasing l → order_by key true l = reverse l.
Proof.
  induction 1 as [|x l Hl IH Hx]; [done|].
  unfold order_by in *. simpl. rewrite IH, reverse_cons.
  apply order_insert_desc_back, Forall_reverse, Hx.
Qed.



Lemma filter_all (P : A → Prop) `{!∀ x, Decision (P x)} l :
  Forall P l → filter P l = l.
Proof.
  induction 1 as [|x l Hx _ IH]; [done|].
  by rewrite filter_cons_True, IH.
Qed.

Lemma filter_none (P : A → Prop) `{!∀ x, Decision (P x)} l :
  Forall (λ x, ¬ P x) l → filter P l = [].
Proof.
  induction 1 as [|x l Hx _ IH]; [done|].
  by rewrite filter_cons_False.
Qed.

(** In a table with distinct, increasing keys, selecting the rows whose
    key occurs among the keys of a tail gives back that tail. *)
Lemma filter_key_in_drop l k :
  increasing l → filter (λ m, key m ∈ key <$> drop k l) l = drop k l.
Proof.
  intros Hl. revert k. induction Hl as [|x l Hl IH Hx]; intros k.
  - by rewrite drop_nil.
  - destruct k as [|k].
    + rewrite drop_0. apply filter_all, Forall_forall.
      intros y Hy. by apply list_elem_of_fmap_2.
    + simpl. rewrite filter_cons_False; [apply IH|].
      intros (y & Hxy & Hy)%list_elem_of_fmap.
      apply list_elem_of_lookup in Hy as [i Hi].
      rewrite lookup_drop in Hi. apply list_elem_of_lookup_2 in Hi.
      eapply Forall_forall in Hx; [|done]. lia.
Qed.
End ordered.

(** ** The statements of the SQLite store *)

Import SQLiteDialogHistory.

Lemma keep_last_length {A} (n : Z) (l : list A) :
  0 ≤ n → Z.of_nat (length (keep_last n l)) = Z.min n (Z.of_nat (length l)).
Proof. intros Hn. unfold keep_last. rewrite length_drop. lia. Qed.

Lemma keep_last_ge {A} (n : Z) (l : list A) :
  Z.of_nat (length l) ≤ n → keep_last n l = l.
Proof.
  intros Hn. unfold keep_last.
  replace (length l - Z.to_nat n)%nat with 0%nat by lia. apply drop_0.
Qed.

Lemma window_suffix {A} (n : Z) (l : list A) : window n l `suffix_of` l.
Proof. unfold window, keep_last. case_match; [done|apply suffix_drop]. Qed.

Lemma window_fmap {A B} (f : A → B) (n : Z) (l : list A) :
  f <$> window n l = window n (f <$> l).
Proof.
  unfold window, keep_last. case_match; [done|].
  by rewrite fmap_drop, length_fmap.
Qed.

Lemma select_history_rows_wf user_id db :
  wf db → select_history_rows user_id db = user_rows user_id db.
Proof.
  intros [Hinc _]. unfold select_history_rows.
  apply order_by_asc_increasing, increasing_filter, Hinc.
Qed.

Lemma select_recent_ids_wf user_id n db :
  wf db →
  select_recent_ids user_id n db
  = m_id <$> (if n <? 0 then reverse (user_rows user_id db)
              else reverse (keep_last n (user_rows user_id db))).
Proof.
  intros [Hinc _]. unfold select_recent_ids, limit.
  fold (user_rows user_id db).
  rewrite (order_by_desc_increasing m_id) by apply increasing_filter, Hinc.
  case_match; [done|]. by rewrite take_reverse.
Qed.

Lemma delete_old_messages_user user_id n db :
  wf db →
  user_rows user_id (delete_old_messages user_id n db)
  = window n (user_rows user_id db).
Proof.
  intros Hwf. unfold user_rows at 1. simpl.
  rewrite list_filter_filter.
  rewrite select_recent_ids_wf by done.
  pose proof (increasing_filter m_id (λ m, m_user_id m = user_id) _
                (wf_increasing _ Hwf)) as Hinc.
  fold (user_rows user_id db) in Hinc.
  unfold window. destruct (n <? 0) eqn:Hn.
  - rewrite (list_filter_iff _
      (λ m, m_id m ∈ m_id <$> drop 0 (user_rows user_id db) ∧ m_user_id m = user_id)).
    + rewrite <- list_filter_filter. fold (user_rows user_id db).
      by rewrite (filter_key_in_drop m_id), drop_0.
    + intros m. rewrite drop_0, fmap_reverse, elem_of_reverse.
      split; [intros [? H]|intros [? ?]; split; [done|tauto]].
      split; [|done]. destruct (decide (m_id m ∈ m_id <$> user_rows user_id db)); tauto.
  - unfold keep_last.
    rewrite (list_filter_iff _
      (λ m, m_id m ∈ m_id <$> drop (length (user_rows user_id db) - Z.to_nat n)
                                 (user_rows user_id db)
            ∧ m_user_id m = user_id)).
    + rewrite <- list_filter_filter. fold (user_rows user_id db).
      by rewrite (filter_key_in_drop m_id).
    + intros m. rewrite fmap_reverse, elem_of_reverse.
      split; [intros [? H]|intros [? ?]; split; [done|tauto]].
      split; [|done].
      match goal with |- ?P => destruct (decide P); tauto end.
Qed.

Lemma delete_old_messages_other user_id v n db :
  v ≠ user_id →
  user_rows v (delete_old_messages user_id n db) = user_rows v db.
Proof.
  intros Hv. unfold user_rows. simpl. rewrite list_filter_filter.
  apply list_filter_iff. intros m. split; [tauto|].
  intros Hm. split; [done|]. intros [? _]. congruence.
Qed.

Lemma CHECK_role_Literal role : CHECK_role role = Literal_user_assistant role.
Proof.
  unfold CHECK_role, Literal_user_assistant.
  rewrite <- bool_decide_or. apply bool_decide_ext.
  rewrite !elem_of_cons, elem_of_nil. tauto.
Qed.

Lemma wf_empty_database : wf empty_database.
Proof. split; constructor. Qed.

Lemma wf_filter (P : MessageRow → Prop) `{!∀ m, Decision (P m)} us db :
  wf db →
  wf {| users := us; messages := filter P (messages db);
        sqlite_sequence := sqlite_sequence db |}.
Proof.
  intros [Hinc Hseq]. split; simpl.
  - by apply increasing_filter.
  - apply Forall_forall. intros m [_ Hm]%list_elem_of_filter.
    by eapply Forall_forall in Hseq.
Qed.

Lemma wf_upsert_users now user_id username db :
  wf db → wf (upsert_users now user_id username db).
Proof. intros [??]. by split. Qed.

Lemma wf_delete_old_messages user_id n db :
  wf db → wf (delete_old_messages user_id n db).
Proof. apply wf_filter. Qed.

Lemma wf_delete_messages user_id db : wf db → wf (delete_messages user_id db).
Proof. apply wf_filter. Qed.

Create HintDb store discriminated.

#[local] Hint Resolve wf_empty_database wf_upsert_users wf_delete_old_messages
  wf_delete_messages : store.

(** The row an accepted INSERT appends. *)
Lemma insert_message_accepted now user_id role content db :
  Literal_user_assistant role = true →
  ∃ db',
    insert_message now user_id role content db = Ok db' ∧
    users db' = users db ∧
    messages db' = messages db ++
      [{| m_id := sqlite_sequence db + 1; m_user_id := user_id; m_role := role;
          m_content := content; m_created_at := now |}] ∧
    (wf db → wf db').
Proof.
  intros Hrole. unfold insert_message. rewrite CHECK_role_Literal, Hrole.
  eexists. split; [done|]. simpl. split; [done|]. split; [done|].
  intros [Hinc Hseq]. split; simpl.
  - apply increasing_snoc; [done|].
    eapply Forall_impl; [exact Hseq|]. simpl. intros; lia.
  - apply Forall_app. split.
    + eapply Forall_impl; [exact Hseq|]. simpl. intros; lia.
    + repeat constructor. simpl. lia.
Qed.

Lemma insert_message_rejected now user_id role content db :
  Literal_user_assistant role = false →
  insert_message now user_id role content db = Raise IntegrityError.
Proof.
  intros Hrole. unfold insert_message. by rewrite CHECK_role_Literal, Hrole.
Qed.



Lemma delete_messages_user user_id db :
  user_rows user_id (delete_messages user_id db) = [].
Proof.
  unfold user_rows. simpl. rewrite list_filter_filter.
  apply filter_none, Forall_forall. intros m _. tauto.
Qed.

Lemma delete_messages_other user_id v db :
  v ≠ user_id → user_rows v (delete_messages user_id db) = user_rows v db.
Proof.
  intros Hv. unfold user_rows. simpl. rewrite list_filter_filter.
  apply list_filter_iff. intros m. split; [tauto|].
  intros Hm. split; [done|]. congruence.
Qed.

(** ** The methods of the SQLite store on an open connection *)

Lemma add_message_accepted self db now user_id role content :
  _db self = Some db →
  Literal_user_assistant role = true →
  ∃ db',
    add_message self now user_id role content = Ok (with_db self db') ∧
    users db' = users db ∧
    (wf db → wf db') ∧
    (wf db →
     user_rows user_id db'
     = window (_max_messages self)
         (user_rows user_id db ++
          [{| m_id := sqlite_sequence db + 1; m_user_id := user_id;
              m_role := role; m_content := content; m_created_at := now |}])) ∧
    (∀ v, v ≠ user_id → user_rows v db' = user_rows v db).
Proof.
  intros Hdb Hrole.
  destruct (insert_message_accepted now user_id role content db Hrole)
    as (db1 & Hins & Hus & Hmsgs & Hwf1).
  exists (delete_old_messages user_id (_max_messages self) db1).
  unfold add_message, connection. rewrite Hrole, Hdb. simpl. rewrite Hins. simpl.
  split; [done|]. split; [done|]. split; [|split].
  - intros Hwf. by apply wf_delete_old_messages, Hwf1.
  - intros Hwf. rewrite delete_old_messages_user by auto. f_equal.
    unfold user_rows. rewrite Hmsgs, filter_app. f_equal.
    by rewrite filter_cons_True, filter_nil.
  - intros v Hv. rewrite delete_old_messages_other by done.
    unfold user_rows. rewrite Hmsgs, filter_app.
    rewrite filter_cons_False, filter_nil by (simpl; congruence).
    by rewrite app_nil_r.
Qed.

Lemma add_message_rejected self now user_id role content :
  Literal_user_assistant role = false →
  add_message self now user_id role content = Raise BeartypeCallHintParamViolation.
Proof. intros Hrole. unfold add_message. by rewrite Hrole. Qed.

Lemma get_history_open self db user_id :
  _db self = Some db → wf db →
  get_history self user_id = Ok (role_content <$> user_rows user_id db).
Proof.
  intros Hdb Hwf. unfold get_history, connection. rewrite Hdb. simpl.
  by rewrite select_history_rows_wf.
Qed.

Lemma get_message_count_open self db user_id :
  _db self = Some db →
  get_message_count self user_id = Ok (Z.of_nat (length (user_rows user_id db))).
Proof. intros Hdb. unfold get_message_count, connection. by rewrite Hdb. Qed.

Lemma clear_open self db user_id :
  _db self = Some db →
  clear self user_id = Ok (with_db self (delete_messages user_id db)).
Proof. intros Hdb. unfold clear, connection. by rewrite Hdb. Qed.

Lemma upsert_user_open self db now user_id username :
  _db self = Some db →
  upsert_user self now user_id username
  = Ok (with_db self (upsert_users now user_id username db)).
Proof. intros Hdb. unfold upsert_user, connection. by rewrite Hdb. Qed.

(** ** Windows *)

Lemma keep_last_snoc {A} (n : Z) (l : list A) x :
  keep_last n (keep_last n l ++ [x]) = keep_last n (l ++ [x]).
Proof.
  unfold keep_last. generalize (Z.to_nat n). clear n. intros n.
  rewrite !length_app, !length_drop. simpl.
  destruct (decide (length l ≤ n)%nat) as [Hle|Hgt].
  - replace (length l - n)%nat with 0%nat by lia.
    rewrite drop_0. f_equal. lia.
  - destruct (decide (n = 0%nat)) as [->|Hn].
    + rewrite !drop_ge; [done| |]; rewrite length_app, ?length_drop; simpl; lia.
    + rewrite (drop_app_le l [x]) by lia.
      rewrite drop_app_le by (rewrite length_drop; lia).
      rewrite drop_drop. do 2 f_equal. lia.
Qed.

Lemma window_snoc {A} (n : Z) (l : list A) x :
  window n (window n l ++ [x]) = window n (l ++ [x]).
Proof. unfold window. case_match; [done|apply keep_last_snoc]. Qed.

Lemma window_nil {A} (n : Z) : window n (@nil A) = [].
Proof. unfold window, keep_last. case_match; [done|apply drop_nil]. Qed.

Lemma window_length {A} (n : Z) (l : list A) :
  0 ≤ n → Z.of_nat (length (window n l)) = Z.min n (Z.of_nat (length l)).
Proof.
  intros Hn. unfold window. rewrite (proj2 (Z.ltb_ge _ _)) by done.
  by apply keep_last_length.
Qed.

Lemma insertion_log_snoc user_id cs c :
  insertion_log user_id (cs ++ [c]) = log_step user_id (insertion_log user_id cs) c.
Proof. unfold insertion_log. by rewrite foldl_app. Qed.

(** ** Every store reached from a fresh one *)

Lemma store_inv_fresh max_messages : store_inv max_messages [] (fresh max_messages).
Proof.
  split; [done|]. exists empty_database. split; [done|].
  split; [auto with store|]. intros u.
  change (insertion_log u (core_calls [])) with (@nil (string * string)).
  by rewrite window_nil.
Qed.

Lemma store_inv_apply max_messages trace self timed :
  store_inv max_messages trace self →
  store_inv max_messages (trace ++ [timed]) (apply self timed).
Proof.
  intros (Hmax & db & Hdb & Hwf & Hrows). destruct timed as [now req].
  unfold store_inv, core_calls. rewrite omap_app. fold (core_calls trace).
  unfold apply. simpl. destruct req as [v name|c]; simpl.
  - rewrite (upsert_user_open _ db) by done. simpl. split; [done|].
    eexists. split; [done|]. split; [auto with store|].
    intros u. rewrite app_nil_r. apply Hrows.
  - destruct c as [v role content|v|v|v]; simpl.
    + destruct (Literal_user_assistant role) eqn:Hrole.
      * destruct (add_message_accepted self db now v role content Hdb Hrole)
          as (db' & -> & _ & Hwf' & Huser & Hother). simpl.
        split; [done|]. exists db'. split; [done|]. split; [auto|].
        intros u. rewrite insertion_log_snoc. simpl. rewrite Hrole.
        case_decide as Hu.
        -- subst v. rewrite Huser, window_fmap, fmap_app by done. simpl.
           unfold role_content at 2. simpl.
           rewrite Hrows, Hmax. apply window_snoc.
        -- rewrite Hother by done. apply Hrows.
      * rewrite add_message_rejected by done. simpl.
        split; [done|]. exists db. split; [done|]. split; [done|].
        intros u. rewrite insertion_log_snoc. simpl. rewrite Hrole.
        case_decide; apply Hrows.
    + unfold get_history, connection. rewrite Hdb. simpl.
      split; [done|]. exists db. split; [done|]. split; [done|].
      intros u. rewrite insertion_log_snoc. apply Hrows.
    + rewrite (clear_open _ db) by done. simpl.
      split; [done|]. eexists. split; [done|].
      split; [auto with store|].
      intros u. rewrite insertion_log_snoc. simpl. case_decide as Hu.
      * subst v. by rewrite delete_messages_user, window_nil.
      * rewrite delete_messages_other by done. apply Hrows.
    + rewrite (get_message_count_open _ db) by done. simpl.
      split; [done|]. exists db. split; [done|]. split; [done|].
      intros u. rewrite insertion_log_snoc. apply Hrows.
Qed.

Lemma store_inv_run max_messages trace :
  store_inv max_messages trace (run trace (fresh max_messages)).
Proof.
  induction trace as [|timed trace IH] using rev_ind.
  - apply store_inv_fresh.
  - unfold run. rewrite foldl_app. simpl. by apply store_inv_apply.
Qed.

(** ** The in-memory store *)



Lemma trimmed_window {A} (n : Z) (l : list A) : 1 ≤ n → trimmed n l = window n l.
Proof.
  intros Hn. unfold trimmed, window.
  rewrite (proj2 (Z.ltb_ge _ _)) by lia.
  destruct (Z.gtb_spec (Z.of_nat (length l)) n) as [Hgt|Hle].
  - unfold slice_from, keep_last.
    rewrite (proj2 (Z.ltb_lt _ _)) by lia. f_equal. lia.
  - by rewrite keep_last_ge.
Qed.

Lemma trimmed_fmap {A B} (f : A → B) (n : Z) (l : list A) :
  f <$> trimmed n l = trimmed n (f <$> l).
Proof.
  unfold trimmed, slice_from. rewrite length_fmap.
  case_match; [|done]. apply fmap_drop.
Qed.

Lemma getitem_fst h user_id :
  (DialogHistory.getitem h user_id).1 = default [] (h !! user_id).
Proof. unfold DialogHistory.getitem. by destruct (h !! user_id). Qed.

Lemma getitem_snd h user_id v :
  default [] ((DialogHistory.getitem h user_id).2 !! v) = default [] (h !! v).
Proof.
  unfold DialogHistory.getitem. destruct (h !! user_id) eqn:Hu; [done|]. simpl.
  destruct (decide (user_id = v)) as [->|Hv].
  - by rewrite lookup_insert_eq, Hu.
  - by rewrite lookup_insert_ne.
Qed.

(** Name what [self._history[user_id]] returns and the dict it leaves. *)
Ltac getitem_cases self user_id Hsnd :=
  let Hfst := fresh "Hfst" in
  let l := fresh "l" in
  let h := fresh "h" in
  pose proof (getitem_fst (DialogHistory._history self) user_id) as Hfst;
  pose proof (getitem_snd (DialogHistory._history self) user_id) as Hsnd;
  destruct (DialogHistory.getitem (DialogHistory._history self) user_id) as [l h];
  simpl in *; subst l.

Lemma mem_add_message_accepted self user_id role content :
  Literal_user_assistant role = true →
  ∃ self',
    DialogHistory.add_message self user_id role content = Ok self' ∧
    DialogHistory.max_messages self' = DialogHistory.max_messages self ∧
    entries user_id self'
    = trimmed (DialogHistory.max_messages self)
        (entries user_id self ++
         [{| DialogHistory.role := role; DialogHistory.content := content |}]) ∧
    ∀ v, v ≠ user_id → entries v self' = entries v self.
Proof.
  intros Hrole. unfold DialogHistory.add_message. rewrite Hrole.
  getitem_cases self user_id Hsnd.
  unfold trimmed, entries.
  case_match; eexists; (split; [done|]); simpl;
    (split; [done|]); split.
  - by rewrite lookup_insert_eq.
  - intros v Hv. by rewrite !lookup_insert_ne, Hsnd by done.
  - by rewrite lookup_insert_eq.
  - intros v Hv. by rewrite lookup_insert_ne, Hsnd by done.
Qed.

Lemma mem_add_message_rejected self user_id role content :
  Literal_user_assistant role = false →
  DialogHistory.add_message self user_id role content
  = Raise BeartypeCallHintParamViolation.
Proof. intros Hrole. unfold DialogHistory.add_message. by rewrite Hrole. Qed.

Lemma mem_get_history_spec self user_id :
  (DialogHistory.get_history self user_id).1 = msg_pair <$> entries user_id self ∧
  DialogHistory.max_messages (DialogHistory.get_history self user_id).2
  = DialogHistory.max_messages self ∧
  ∀ v, entries v (DialogHistory.get_history self user_id).2 = entries v self.
Proof.
  unfold DialogHistory.get_history, entries.
  by getitem_cases self user_id Hsnd.
Qed.

Lemma mem_get_message_count_spec self user_id :
  (DialogHistory.get_message_count self user_id).1
  = Z.of_nat (length (entries user_id self)) ∧
  DialogHistory.max_messages (DialogHistory.get_message_count self user_id).2
  = DialogHistory.max_messages self ∧
  ∀ v, entries v (DialogHistory.get_message_count self user_id).2 = entries v self.
Proof.
  unfold DialogHistory.get_message_count, entries.
  by getitem_cases self user_id Hsnd.
Qed.

Lemma mem_clear_user self user_id : entries user_id (DialogHistory.clear self user_id) = [].
Proof. unfold entries, DialogHistory.clear. simpl. by rewrite lookup_insert_eq. Qed.

Lemma mem_clear_other self user_id v :
  v ≠ user_id → entries v (DialogHistory.clear self user_id) = entries v self.
Proof.
  intros Hv. unfold entries, DialogHistory.clear. simpl.
  by rewrite lookup_insert_ne.
Qed.

Lemma mem_run_snoc cs c self :
  DialogHistory.run (cs ++ [c]) self
  = (DialogHistory.step c (DialogHistory.run cs self)).2.
Proof. revert self. induction cs as [|c' cs IH]; intros self; simpl; [done|apply IH]. Qed.

Lemma mem_step_max_messages c self :
  DialogHistory.max_messages (DialogHistory.step c self).2
  = DialogHistory.max_messages self.
Proof.
  destruct c as [v role content|v|v|v]; simpl.
  - destruct (Literal_user_assistant role) eqn:Hrole.
    + destruct (mem_add_message_accepted self v role content Hrole)
        as (self' & -> & Hmax & _). done.
    + by rewrite mem_add_message_rejected.
  - pose proof (mem_get_history_spec self v) as (_ & Hmax & _).
    by destruct (DialogHistory.get_history self v).
  - done.
  - pose proof (mem_get_message_count_spec self v) as (_ & Hmax & _).
    by destruct (DialogHistory.get_message_count self v).
Qed.

(** What one call does to the list of one user. *)
Lemma mem_step_entries c self user_id :
  msg_pair <$> entries user_id (DialogHistory.step c self).2
  = match c with
    | AddMessage v role content =>
        if decide (v = user_id)
        then if Literal_user_assistant role
             then trimmed (DialogHistory.max_messages self)
                    ((msg_pair <$> entries user_id self) ++ [(role, content)])
             else msg_pair <$> entries user_id self
        else msg_pair <$> entries user_id self
    | Clear v =>
        if decide (v = user_id) then [] else msg_pair <$> entries user_id self
    | GetHistory _ | GetMessageCount _ => msg_pair <$> entries user_id self
    end.
Proof.
  destruct c as [v role content|v|v|v]; simpl.
  - destruct (Literal_user_assistant role) eqn:Hrole.
    + destruct (mem_add_message_accepted self v role content Hrole)
        as (self' & -> & _ & Huser & Hother). simpl.
      case_decide as Hu.
      * subst v. by rewrite Huser, trimmed_fmap, fmap_app.
      * by rewrite Hother.
    + rewrite mem_add_message_rejected by done. simpl. by case_decide.
  - pose proof (mem_get_history_spec self v) as (_ & _ & Hsame).
    destruct (DialogHistory.get_history self v). simpl in *. by rewrite Hsame.
  - case_decide as Hu.
    + subst v. by rewrite mem_clear_user.
    + by rewrite mem_clear_other.
  - pose proof (mem_get_message_count_spec self v) as (_ & _ & Hsame).
    destruct (DialogHistory.get_message_count self v). simpl in *. by rewrite Hsame.
Qed.

Lemma mem_run_max_messages cs self :
  DialogHistory.max_messages (DialogHistory.run cs self)
  = DialogHistory.max_messages self.
Proof.
  revert self. induction cs as [|c cs IH]; intros self; simpl; [done|].
  by rewrite IH, mem_step_max_messages.
Qed.


Lemma mem_run_window max_messages cs user_id :
  1 ≤ max_messages →
  msg_pair <$> entries user_id (DialogHistory.run cs (DialogHistory.__init__ max_messages))
  = window max_messages (insertion_log user_id cs).
Proof.
  intros Hmax. induction cs as [|c cs IH] using rev_ind.
  - change (insertion_log user_id []) with (@nil (string * string)).
    by rewrite window_nil.
  - rewrite mem_run_snoc, insertion_log_snoc, mem_step_entries.
    rewrite mem_run_max_messages. simpl.
    destruct c as [v role content|v|v|v]; simpl; try done.
    + case_decide; [|done]. case_match; [|done].
      rewrite trimmed_window, IH by done. apply window_snoc.
    + case_decide; [|done]. by rewrite window_nil.
Qed.

(** ** The two stores side by side *)

Lemma sim_fresh max_messages :
  sim max_messages (fresh max_messages) (DialogHistory.__init__ max_messages).
Proof.
  split; [done|]. split; [done|]. exists empty_database.
  split; [done|]. split; [apply wf_empty_database|done].
Qed.

Lemma sim_step max_messages now c s m :
  1 ≤ max_messages →
  sim max_messages s m →
  (step now c s).1 = (DialogHistory.step c m).1 ∧
  sim max_messages (step now c s).2 (DialogHistory.step c m).2.
Proof.
  intros Hmax (Hs & Hm & db & Hdb & Hwf & Hrows).
  assert (∀ db',
    (∀ u, role_content <$> user_rows u db'
          = msg_pair <$> entries u (DialogHistory.step c m).2) →
    wf db' → sim max_messages (with_db s db') (DialogHistory.step c m).2) as Hsim.
  { intros db' Hrows' Hwf'. split; [done|].
    split; [by rewrite mem_step_max_messages|]. by exists db'. }
  assert (with_db s db = s) as Hsame by (destruct s; simpl in *; by subst).
  pose proof (λ u, mem_step_entries c m u) as Hmem.
  destruct c as [v role content|v|v|v]; simpl in *.
  - destruct (Literal_user_assistant role) eqn:Hrole.
    + destruct (add_message_accepted s db now v role content Hdb Hrole)
        as (db' & -> & _ & Hwf' & Huser & Hother).
      destruct (mem_add_message_accepted m v role content Hrole)
        as (m' & Hadd & _). rewrite Hadd in *. simpl in *.
      split; [done|]. apply Hsim; [|auto]. intros u. rewrite Hmem.
      case_decide as Hu.
      * subst v. rewrite Huser, window_fmap, fmap_app by done.
        rewrite Hm, trimmed_window, Hs, Hrows by done. done.
      * rewrite Hother by done. apply Hrows.
    + rewrite add_message_rejected by done.
      rewrite mem_add_message_rejected in * by done. simpl in *.
      split; [done|]. rewrite <- Hsame. apply Hsim; [|done].
      intros u. rewrite Hmem. by case_decide.
  - rewrite (get_history_open s db) by done. simpl.
    pose proof (mem_get_history_spec m v) as (Hl & _).
    destruct (DialogHistory.get_history m v) as [l m']. simpl in *.
    split; [by rewrite Hl, Hrows|].
    rewrite <- Hsame. apply Hsim; [|done]. intros u. by rewrite Hmem.
  - rewrite (clear_open s db) by done. simpl. split; [done|].
    apply Hsim; [|auto with store]. intros u. rewrite Hmem.
    case_decide as Hu.
    + subst v. by rewrite delete_messages_user.
    + rewrite delete_messages_other by done. apply Hrows.
  - rewrite (get_message_count_open s db) by done. simpl.
    pose proof (mem_get_message_count_spec m v) as (Hn & _).
    destruct (DialogHistory.get_message_count m v) as [n m']. simpl in *.
    split.
    + rewrite Hn. f_equal. f_equal.
      rewrite <- (length_fmap role_content), Hrows. apply length_fmap.
    + rewrite <- Hsame. apply Hsim; [|done]. intros u. by rewrite Hmem.
Qed.

Lemma sim_responses max_messages cs s m :
  1 ≤ max_messages →
  sim max_messages s m →
  responses cs s = DialogHistory.responses cs.*2 m.
Proof.
  intros Hmax. revert s m. induction cs as [|[now c] cs IH]; intros s m Hsim; [done|].
  simpl. destruct (sim_step max_messages now c s m Hmax Hsim) as [Hr Hsim'].
  destruct (step now c s) as [r s'], (DialogHistory.step c m) as [r' m'].
  simpl in *. subst r'. f_equal. by apply IH.
Qed.

(** ** Interleaved method calls *)

Lemma in_flight_nonneg user_id pool : 0 ≤ in_flight user_id pool.
Proof. unfold in_flight. lia. Qed.

Lemma in_flight_insert user_id pool i old new :
  pool !! i = Some old →
  in_flight user_id (<[i := new]> pool)
  = in_flight user_id pool
    - Z.b2z (awaiting_trim user_id old) + Z.b2z (awaiting_trim user_id new).
Proof.
  intros Hi. unfold in_flight.
  rewrite insert_take_drop by (by eapply lookup_lt_Some).
  rewrite <- (take_drop_middle pool i old Hi) at 3.
  rewrite !filter_app, !filter_cons, !length_app.
  destruct (awaiting_trim user_id old), (awaiting_trim user_id new);
    repeat case_decide; try done; simpl; lia.
Qed.

Lemma coroutine_ok max_messages now c : task_ok max_messages (coroutine max_messages now c).
Proof. destruct c; simpl; try done. by case_match. Qed.

Lemma coroutine_not_awaiting max_messages now c user_id :
  awaiting_trim user_id (coroutine max_messages now c) = false.
Proof. destruct c; simpl; try done. by case_match. Qed.

Lemma loop_inv_spawn max_messages cs :
  0 ≤ max_messages → loop_inv max_messages (spawn max_messages cs empty_database).
Proof.
  intros Hmax. split; [apply wf_empty_database|]. split.
  - simpl. apply Forall_fmap, Forall_forall. intros ? _. apply coroutine_ok.
  - intros u. pose proof (in_flight_nonneg u (tasks (spawn max_messages cs empty_database))).
    assert (count_messages u (conn (spawn max_messages cs empty_database)) = 0)
      as -> by done.
    lia.
Qed.

Lemma loop_inv_spawn_on max_messages cs db :
  wf db →
  (∀ v, count_messages v db ≤ max_messages) →
  loop_inv max_messages (spawn max_messages cs db).
Proof.
  intros Hwf Hbound. split; [done|]. split.
  - simpl. apply Forall_fmap, Forall_forall. intros ? _. apply coroutine_ok.
  - intros u. pose proof (in_flight_nonneg u (tasks (spawn max_messages cs db))).
    specialize (Hbound u). simpl in *. lia.
Qed.

Lemma count_messages_user_rows user_id db :
  count_messages user_id db = Z.of_nat (length (user_rows user_id db)).
Proof. done. Qed.

Lemma loop_inv_resume max_messages cfg i :
  0 ≤ max_messages → loop_inv max_messages cfg → loop_inv max_messages (resume cfg i).
Proof.
  intros Hmax (Hwf & Hok & Hbound). unfold resume.
  destruct (tasks cfg !! i) as [task|] eqn:Hi; [|done].
  pose proof (Forall_lookup_1 _ _ _ _ Hok Hi) as Htask.
  pose proof (λ u new, in_flight_insert u (tasks cfg) i task new Hi) as Hfl.
  destruct task as [|st rest]; [done|].
  destruct st as [now v role content|v n|v|v|v|]; simpl in *.
  - destruct rest as [|[| v' n' | | | |] [|[] []]]; try done.
    destruct Htask as [-> ->].
    destruct (Literal_user_assistant role) eqn:Hrole.
    + destruct (insert_message_accepted now v role content (conn cfg) Hrole)
        as (db' & -> & _ & Hmsgs & Hwf'). simpl.
      split; [auto|]. split; [by apply Forall_insert|].
      intros u. simpl. rewrite Hfl. simpl. specialize (Hbound u).
      rewrite !count_messages_user_rows in *. unfold user_rows in *.
      rewrite Hmsgs, filter_app, length_app, filter_cons, filter_nil. simpl.
      case_decide; case_bool_decide; simpl; try congruence; lia.
    + rewrite insert_message_rejected by done. simpl.
      split; [done|]. split; [by apply Forall_insert|].
      intros u. simpl. rewrite Hfl. simpl. specialize (Hbound u). lia.
  - destruct rest as [|[] []]; try done. subst n.
    split; [by apply wf_delete_old_messages|]. split; [by apply Forall_insert|].
    intros u. simpl. rewrite Hfl. simpl. specialize (Hbound u).
    rewrite !count_messages_user_rows in *. case_bool_decide as Hu; simpl.
    + subst v. rewrite delete_old_messages_user, window_length by done.
      pose proof (in_flight_nonneg u (<[i := []]> (tasks cfg))) as Hpos.
      rewrite Hfl, bool_decide_eq_true_2 in Hpos by done. simpl in Hpos. lia.
    + rewrite delete_old_messages_other by done. lia.
  - destruct rest; [|done].
    split; [done|]. split; [by apply Forall_insert|].
    intros u. simpl. rewrite Hfl. simpl. specialize (Hbound u). lia.
  - destruct rest as [|[] []]; try done.
    split; [by apply wf_delete_messages|]. split; [by apply Forall_insert|].
    intros u. simpl. rewrite Hfl. simpl. specialize (Hbound u).
    rewrite !count_messages_user_rows in *.
    destruct (decide (u = v)) as [->|Hu].
    + rewrite delete_messages_user. simpl.
      pose proof (in_flight_nonneg v (tasks cfg)). lia.
    + rewrite delete_messages_other by done. lia.
  - destruct rest; [|done].
    split; [done|]. split; [by apply Forall_insert|].
    intros u. simpl. rewrite Hfl. simpl. specialize (Hbound u). lia.
  - destruct rest; [|done].
    split; [done|]. split; [by apply Forall_insert|].
    intros u. simpl. rewrite Hfl. simpl. specialize (Hbound u). lia.
Qed.

Lemma loop_inv_schedule max_messages order cfg :
  0 ≤ max_messages → loop_inv max_messages cfg →
  loop_inv max_messages (schedule order cfg).
Proof.
  intros Hmax. revert cfg. induction order as [|i order IH]; intros cfg Hinv; [done|].
  simpl. by apply IH, loop_inv_resume.
Qed.



(** ** The bounded window *)

Lemma trimmed_zero {A} (l : list A) : trimmed 0 l = l.
Proof.
  unfold trimmed, slice_from. simpl. case_match; [|done].
  rewrite (proj2 (Z.min_l_iff _ _)) by lia. apply drop_0.
Qed.

Lemma mem_run_zero cs user_id :
  msg_pair <$> entries user_id (DialogHistory.run cs (DialogHistory.__init__ 0))
  = insertion_log user_id cs.
Proof.
  induction cs as [|c cs IH] using rev_ind; [done|].
  rewrite mem_run_snoc, insertion_log_snoc, mem_step_entries.
  rewrite mem_run_max_messages. simpl.
  destruct c as [v role content|v|v|v]; simpl; try done.
  - case_decide; [|done]. case_match; [|done]. by rewrite trimmed_zero, IH.
  - by case_decide.
Qed.

(** C1 (bounded window), evaluated where the code departs from it.  The
    in-memory store set up with [max_messages = 0] answers a count of 1 after
    one [add_message]: [messages[-0:]] is the whole list, so nothing is ever
    trimmed and the count is the length of the user's whole log.  The SQLite
    store on the same calls answers 0. *)
Theorem in_memory_zero_limit_never_trims :
  DialogHistory.responses
    [AddMessage 42 "user" "a"; GetMessageCount 42; GetHistory 42]
    (DialogHistory.__init__ 0)
  = [Returned; Count 1; History [("user"%string, "a"%string)]]
  ∧ SQLiteDialogHistory.responses
      [(0, AddMessage 42 "user" "a"); (0, GetMessageCount 42); (0, GetHistory 42)]
      (SQLiteDialogHistory.fresh 0)
    = [Returned; Count 0; History []]
  ∧ ∀ cs user_id,
      (DialogHistory.get_message_count
         (DialogHistory.run cs (DialogHistory.__init__ 0)) user_id).1
      = Z.of_nat (length (insertion_log user_id cs)).
Proof.
  split; [by vm_compute|]. split; [by vm_compute|].
  intros cs u.
  destruct (mem_get_message_count_spec
              (DialogHistory.run cs (DialogHistory.__init__ 0)) u) as (-> & _).
  by rewrite <- (mem_run_zero cs u), length_fmap.
Qed.



(** The in-memory store keeps the bound for every limit of at least one. *)
Theorem in_memory_window_bounded max_messages cs user_id :
  1 ≤ max_messages →
  0 ≤ (DialogHistory.get_message_count
         (DialogHistory.run cs (DialogHistory.__init__ max_messages)) user_id).1
    ≤ max_messages.
Proof.
  intros Hmax.
  destruct (mem_get_message_count_spec
              (DialogHistory.run cs (DialogHistory.__init__ max_messages)) user_id)
    as (-> & _).
  rewrite <- (length_fmap msg_pair), mem_run_window, window_length by lia. lia.
Qed.

Lemma in_memory_window_bounded_witness :
  0 ≤ (DialogHistory.get_message_count
         (DialogHistory.run
            [AddMessage 42 "user" "a"; AddMessage 42 "assistant" "b"]
            (DialogHistory.__init__ 1)) 42).1
    ≤ 1.
Proof. apply (in_memory_window_bounded 1); lia. Defined.

(** ** Ordering *)


(** C3.  With [max_messages = 3], after the four appends for user 42 both
    stores return exactly the last three messages and a count of 3; the rows
    the SQLite table keeps are those with the three highest rowids. *)
Theorem trim_scenario_keeps_last_three (t1 t2 t3 t4 t5 t6 : Z) :
  SQLiteDialogHistory.responses
    [(t1, AddMessage 42 "user" "a"); (t2, AddMessage 42 "assistant" "b");
     (t3, AddMessage 42 "user" "c"); (t4, AddMessage 42 "assistant" "d");
     (t5, GetHistory 42); (t6, GetMessageCount 42)]
    (SQLiteDialogHistory.fresh 3)
  = [Returned; Returned; Returned; Returned;
     History [("assistant", "b"); ("user", "c"); ("assistant", "d")]%string;
     Count 3]
  ∧ (SQLiteDialogHistory.m_id <$>
       default []
         (SQLiteDialogHistory.messages <$>
            SQLiteDialogHistory._db
              (SQLiteDialogHistory.run
                 [(t1, Core (AddMessage 42 "user" "a"));
                  (t2, Core (AddMessage 42 "assistant" "b"));
                  (t3, Core (AddMessage 42 "user" "c"));
                  (t4, Core (AddMessage 42 "assistant" "d"))]
                 (SQLiteDialogHistory.fresh 3))))
    = [2; 3; 4]
  ∧ DialogHistory.responses
      [AddMessage 42 "user" "a"; AddMessage 42 "assistant" "b";
       AddMessage 42 "user" "c"; AddMessage 42 "assistant" "d";
       GetHistory 42; GetMessageCount 42]
      (DialogHistory.__init__ 3)
    = [Returned; Returned; Returned; Returned;
       History [("assistant", "b"); ("user", "c"); ("assistant", "d")]%string;
       Count 3].
Proof. split; [by vm_compute|]. split; by vm_compute. Qed.

(** ** User records *)




(** ** Clearing and reading *)


Lemma select_history_rows_none user_id db :
  user_rows user_id db = [] → select_history_rows user_id db = [].
Proof. unfold select_history_rows. fold (user_rows user_id db). by intros ->. Qed.


(** ** The role constraint *)

Lemma Literal_user_assistant_false role :
  role ≠ "user"%string → role ≠ "assistant"%string →
  Literal_user_assistant role = false.
Proof.
  intros Hu Ha. unfold Literal_user_assistant.
  by rewrite !bool_decide_eq_false_2.
Qed.

(** C7.  A role other than ['user'] and ['assistant'] is refused when
    [add_message] is called, by the parameter hint, before the body runs:
    both stores raise the hint violation and are left as they were, so no
    message is stored.  Behind it the column constraint of [messages] would
    refuse the same row. *)
Theorem add_message_rejects_other_roles self m db now user_id role content :
  role ≠ "user"%string →
  role ≠ "assistant"%string →
  SQLiteDialogHistory.add_message self now user_id role content
  = Raise BeartypeCallHintParamViolation
  ∧ SQLiteDialogHistory.step now (AddMessage user_id role content) self
    = (Raised BeartypeCallHintParamViolation, self)
  ∧ DialogHistory.add_message m user_id role content
    = Raise BeartypeCallHintParamViolation
  ∧ DialogHistory.step (AddMessage user_id role content) m
    = (Raised BeartypeCallHintParamViolation, m)
  ∧ SQLiteDialogHistory.insert_message now user_id role content db
    = Raise IntegrityError.
Proof.
  intros Hu Ha.
  pose proof (Literal_user_assistant_false role Hu Ha) as Hrole.
  split; [by apply add_message_rejected|].
  split; [by simpl; rewrite add_message_rejected|].
  split; [by apply mem_add_message_rejected|].
  split; [by simpl; rewrite mem_add_message_rejected|].
  by apply insert_message_rejected.
Qed.

Lemma add_message_rejects_other_roles_witness :
  SQLiteDialogHistory.add_message (SQLiteDialogHistory.fresh 20) 1 42 "system" "x"
  = Raise BeartypeCallHintParamViolation
  ∧ SQLiteDialogHistory.step 1 (AddMessage 42 "system" "x") (SQLiteDialogHistory.fresh 20)
    = (Raised BeartypeCallHintParamViolation, SQLiteDialogHistory.fresh 20)
  ∧ DialogHistory.add_message (DialogHistory.__init__ 20) 42 "system" "x"
    = Raise BeartypeCallHintParamViolation
  ∧ DialogHistory.step (AddMessage 42 "system" "x") (DialogHistory.__init__ 20)
    = (Raised BeartypeCallHintParamViolation, DialogHistory.__init__ 20)
  ∧ SQLiteDialogHistory.insert_message 1 42 "system" "x"
      SQLiteDialogHistory.empty_database
    = Raise IntegrityError.
Proof.
  apply (add_message_rejects_other_roles (SQLiteDialogHistory.fresh 20)
           (DialogHistory.__init__ 20) SQLiteDialogHistory.empty_database
           1 42 "system" "x"); discriminate.
Defined.

(** ** Aggregate statistics *)


Lemma length_remove_dups_size (l : list Z) :
  length (remove_dups l) = size (list_to_set l : gset Z).
Proof.
  rewrite <- (size_list_to_set (C:=gset Z) (remove_dups l)) by apply NoDup_remove_dups.
  f_equal. apply set_eq. intros x.
  by rewrite !elem_of_list_to_set, elem_of_remove_dups.
Qed.



Lemma run_snoc trace timed self :
  run (trace ++ [timed]) self = apply (run trace self) timed.
Proof. unfold run. by rewrite foldl_app. Qed.







(** ** Atomicity *)

(** Run without interruption, the statements of [add_message] are the
    method. *)
Lemma add_message_run_task self db now user_id role content :
  Literal_user_assistant role = true →
  add_message (with_db self db) now user_id role content
  = match run_task (coroutine (_max_messages self) now
                      (AddMessage user_id role content)) db with
    | inr db' => Ok (with_db self db')
    | inl e => Raise e
    end.
Proof.
  intros Hrole. unfold add_message, coroutine. rewrite Hrole. simpl.
  by destruct (insert_message now user_id role content db).
Qed.

(** C9, as the claim states it, fails: with [max_messages = 1], once a
    first [add_message] has completed, a second one for the same user
    awaits its INSERT and control returns to the event loop; a
    [get_message_count] resumed at that point reads two rows, before the
    second call's DELETE has run.  Resumed after the second call has
    finished it reads one. *)
Lemma reader_between_insert_and_trim :
  observed
    (schedule [0; 0; 0; 1; 2; 1; 1]%nat
       (spawn 1
          [(1, AddMessage 42 "user" "a"); (2, AddMessage 42 "assistant" "b");
           (3, GetMessageCount 42)]
          empty_database))
  = [(0, Returned); (0, Returned); (0, Returned); (1, Returned);
     (2, Count 2); (1, Returned); (1, Returned)]%nat
  ∧ tasks
      (schedule [0; 0; 0; 1]%nat
         (spawn 1
            [(1, AddMessage 42 "user" "a"); (2, AddMessage 42 "assistant" "b");
             (3, GetMessageCount 42)]
            empty_database)) !! 1%nat
    = Some [DeleteOldMessages 42 1; Commit]
  ∧ observed
      (schedule [0; 0; 0; 1; 1; 1; 2]%nat
         (spawn 1
            [(1, AddMessage 42 "user" "a"); (2, AddMessage 42 "assistant" "b");
             (3, GetMessageCount 42)]
            empty_database))
    = [(0, Returned); (0, Returned); (0, Returned); (1, Returned);
       (1, Returned); (1, Returned); (2, Count 1)]%nat.
Proof. repeat split; by vm_compute. Qed.

(** C9, amended.  [add_message] awaits its INSERT, its DELETE and its
    COMMIT one after the other with nothing that keeps other calls off the
    shared connection in between.  Take a connection on a database that
    holds at most [max_messages] messages of every user (a new one, or
    any that calls of this limit have left), with [max_messages] not
    negative.  Whatever method calls are started on it and however the
    event loop orders their statements, the rows a user has on the
    connection, which is what a [SELECT COUNT] scheduled at that point
    reads, number at most [max_messages] plus the calls to [add_message]
    for that user that have run their INSERT and not yet their DELETE; so
    at most [max_messages] whenever no such call is in flight. *)
Theorem interleaved_window_bound max_messages db cs order user_id :
  0 ≤ max_messages →
  SQLiteDialogHistory.wf db →
  (∀ v, SQLiteDialogHistory.count_messages v db ≤ max_messages) →
  SQLiteDialogHistory.execute (SelectCount user_id)
    (conn (schedule order (spawn max_messages cs db)))
  = Ok (conn (schedule order (spawn max_messages cs db)),
        Count (SQLiteDialogHistory.count_messages user_id
                 (conn (schedule order (spawn max_messages cs db)))))
  ∧ SQLiteDialogHistory.count_messages user_id
      (conn (schedule order (spawn max_messages cs db)))
    ≤ max_messages
      + SQLiteDialogHistory.in_flight user_id
          (tasks (schedule order (spawn max_messages cs db)))
  ∧ (SQLiteDialogHistory.in_flight user_id
       (tasks (schedule order (spawn max_messages cs db))) = 0 →
     SQLiteDialogHistory.count_messages user_id
       (conn (schedule order (spawn max_messages cs db)))
     ≤ max_messages).
Proof.
  intros Hmax Hwf Hdb.
  destruct (loop_inv_schedule max_messages order
              (spawn max_messages cs db) Hmax
              (loop_inv_spawn_on max_messages cs db Hwf Hdb)) as (_ & _ & Hbound).
  specialize (Hbound user_id).
  split; [done|]. split; [done|]. intros Hzero. lia.
Qed.

Lemma interleaved_window_bound_witness :
  SQLiteDialogHistory.execute (SelectCount 42)
    (conn (schedule [0; 1]%nat
             (spawn 1
                [(2, AddMessage 42 "assistant" "b"); (3, GetMessageCount 42)]
                {| users := ∅;
                   messages :=
                     [{| m_id := 1; m_user_id := 42; m_role := "user";
                         m_content := "a"; m_created_at := 1 |}];
                   sqlite_sequence := 1 |})))
  = Ok (conn (schedule [0; 1]%nat
                (spawn 1
                   [(2, AddMessage 42 "assistant" "b"); (3, GetMessageCount 42)]
                   {| users := ∅;
                      messages :=
                        [{| m_id := 1; m_user_id := 42; m_role := "user";
                            m_content := "a"; m_created_at := 1 |}];
                      sqlite_sequence := 1 |})),
        Count (SQLiteDialogHistory.count_messages 42
                 (conn (schedule [0; 1]%nat
                          (spawn 1
                             [(2, AddMessage 42 "assistant" "b");
                              (3, GetMessageCount 42)]
                             {| users := ∅;
                                messages :=
                                  [{| m_id := 1; m_user_id := 42; m_role := "user";
                                      m_content := "a"; m_created_at := 1 |}];
                                sqlite_sequence := 1 |})))))
  ∧ SQLiteDialogHistory.count_messages 42
      (conn (schedule [0; 1]%nat
               (spawn 1
                  [(2, AddMessage 42 "assistant" "b"); (3, GetMessageCount 42)]
                  {| users := ∅;
                     messages :=
                       [{| m_id := 1; m_user_id := 42; m_role := "user";
                           m_content := "a"; m_created_at := 1 |}];
                     sqlite_sequence := 1 |})))
    ≤ 1 + SQLiteDialogHistory.in_flight 42
            (tasks (schedule [0; 1]%nat
                      (spawn 1
                         [(2, AddMessage 42 "assistant" "b");
                          (3, GetMessageCount 42)]
                         {| users := ∅;
                            messages :=
                              [{| m_id := 1; m_user_id := 42; m_role := "user";
                                  m_content := "a"; m_created_at := 1 |}];
                            sqlite_sequence := 1 |})))
  ∧ (SQLiteDialogHistory.in_flight 42
       (tasks (schedule [0; 1]%nat
                 (spawn 1
                    [(2, AddMessage 42 "assistant" "b"); (3, GetMessageCount 42)]
                    {| users := ∅;
                       messages :=
                         [{| m_id := 1; m_user_id := 42; m_role := "user";
                             m_content := "a"; m_created_at := 1 |}];
                       sqlite_sequence := 1 |}))) = 0 →
     SQLiteDialogHistory.count_messages 42
       (conn (schedule [0; 1]%nat
                (spawn 1
                   [(2, AddMessage 42 "assistant" "b"); (3, GetMessageCount 42)]
                   {| users := ∅;
                      messages :=
                        [{| m_id := 1; m_user_id := 42; m_role := "user";
                            m_content := "a"; m_created_at := 1 |}];
                      sqlite_sequence := 1 |})))
     ≤ 1).
Proof.
  apply (interleaved_window_bound 1).
  - lia.
  - split; simpl; repeat constructor; simpl; lia.
  - intros v. unfold SQLiteDialogHistory.count_messages. simpl.
    rewrite filter_cons, filter_nil. case_decide; simpl; lia.
Defined.

(** ** The connection: binding, commits, close and reopen *)

Lemma Literal_user_assistant_chat_role role :
  Literal_user_assistant role = true ↔ chat_role role.
Proof.
  unfold Literal_user_assistant, chat_role.
  rewrite orb_true_iff, !bool_decide_eq_true. done.
Qed.

Lemma INTEGER_spec z : INTEGER z = true ↔ - 2 ^ 63 ≤ z < 2 ^ 63.
Proof. unfold INTEGER. rewrite andb_true_iff, Z.leb_le, Z.ltb_lt. done. Qed.

Lemma perform_insert now v role content s db :
  INTEGER v = true →
  insert_message now v role content (view s) = Ok db →
  perform (Statement (InsertMessage now v role content)) s
  = Ok ({| view := db; file := file s |}, Returned).
Proof. intros Hv Hins. unfold perform. simpl. by rewrite Hv, Hins. Qed.

Lemma perform_delete_old v n s :
  INTEGER v = true →
  INTEGER n = true →
  perform (Statement (DeleteOldMessages v n)) s
  = Ok ({| view := delete_old_messages v n (view s); file := file s |}, Returned).
Proof. intros Hv Hn. unfold perform. simpl. by rewrite Hv, Hn. Qed.

Lemma perform_select_history v s :
  INTEGER v = true →
  perform (Statement (SelectHistory v)) s
  = Ok (s, History (role_content <$> select_history_rows v (view s))).
Proof. intros Hv. unfold perform. simpl. rewrite Hv. by destruct s. Qed.

Lemma perform_select_count v s :
  INTEGER v = true →
  perform (Statement (SelectCount v)) s = Ok (s, Count (count_messages v (view s))).
Proof. intros Hv. unfold perform. simpl. rewrite Hv. by destruct s. Qed.

Lemma perform_delete v s :
  INTEGER v = true →
  perform (Statement (DeleteMessages v)) s
  = Ok ({| view := delete_messages v (view s); file := file s |}, Returned).
Proof. intros Hv. unfold perform. simpl. by rewrite Hv. Qed.

Lemma perform_upsert now v name s :
  INTEGER v = true →
  perform (UpsertUsers now v name) s
  = Ok ({| view := upsert_users now v name (view s); file := file s |}, Returned).
Proof. intros Hv. unfold perform. simpl. by rewrite Hv. Qed.

Lemma perform_commit s :
  perform (Statement Commit) s = Ok ({| view := view s; file := view s |}, Returned).
Proof. done. Qed.

(** A statement with a parameter SQLite cannot hold raises and runs
    nothing. *)
Lemma perform_overflow op s :
  forallb INTEGER (parameters op) = false → perform op s = Raise OverflowError.
Proof. intros Hps. unfold perform. by rewrite Hps. Qed.

Lemma perform_all_cons op rest r s s' r' :
  perform op s = Ok (s', r') →
  perform_all (op :: rest) r s = perform_all rest r' s'.
Proof. intros Hop. simpl. by rewrite Hop. Qed.

Lemma perform_all_overflow op rest r s :
  forallb INTEGER (parameters op) = false →
  perform_all (op :: rest) r s = (Raised OverflowError, s).
Proof. intros Hps. simpl. by rewrite perform_overflow. Qed.

Lemma perform_all_no_commit ops r s :
  Statement Commit ∉ ops → file (perform_all ops r s).2 = file s.
Proof.
  revert r s. induction ops as [|op ops IH]; intros r s Hops; [done|].
  apply not_elem_of_cons in Hops as [Hop Hops]. simpl.
  destruct (perform op s) as [e|[s' r']] eqn:Hperform; [done|].
  rewrite IH by done.
  unfold perform in Hperform. destruct (forallb INTEGER (parameters op)); [|done].
  destruct op as [[]|]; simpl in *; try done;
    unfold bind, Ok in Hperform;
    try (destruct (insert_message _ _ _ _ _); simpl in * );
    by simplify_eq.
Qed.

Lemma operations_commit_last max_messages timed p q :
  operations max_messages timed = p ++ q → q ≠ [] → Statement Commit ∉ p.
Proof.
  assert (Forall (λ op, op ≠ Statement Commit)
            (removelast (operations max_messages timed))) as Hinit.
  { destruct timed as [now [v name|c]]; unfold operations; simpl.
    - by repeat constructor.
    - destruct c as [v role content|v|v|v]; simpl;
        try destruct (Literal_user_assistant role); simpl;
        by repeat constructor. }
  intros Heq Hq Hin. rewrite Heq, removelast_app in Hinit by done.
  apply Forall_app in Hinit as [Hp _].
  by eapply Forall_forall in Hp.
Qed.

Lemma apply_max_messages self timed : _max_messages (apply self timed) = _max_messages self.
Proof.
  destruct timed as [now [v name|c]]; unfold apply; simpl.
  - unfold upsert_user. by destruct (connection self).
  - destruct c as [v role content|v|v|v]; simpl.
    + unfold add_message. destruct (Literal_user_assistant role); [|done].
      destruct (connection self) as [|db]; [done|]. simpl.
      by destruct (insert_message now v role content db).
    + by destruct (get_history self v).
    + unfold clear. by destruct (connection self).
    + by destruct (get_message_count self v).
Qed.

(** On ints SQLite can hold, a method call on the connection answers and
    leaves what the method does, and it leaves nothing uncommitted. *)
Lemma call_method_core max_messages self s now c :
  INTEGER max_messages = true →
  INTEGER (call_user c) = true →
  _max_messages self = max_messages →
  _db self = Some (view s) →
  (call_method max_messages s (now, Core c)).1 = (step now c self).1 ∧
  _db (step now c self).2
  = Some (view (call_method max_messages s (now, Core c)).2) ∧
  (file s = view s →
   file (call_method max_messages s (now, Core c)).2
   = view (call_method max_messages s (now, Core c)).2).
Proof.
  intros Hmax Hv Hself Hdb.
  destruct c as [v role content|v|v|v]; unfold call_method, operations;
    cbn [snd fst coroutine fmap list_fmap step call_user] in *.
  - destruct (Literal_user_assistant role) eqn:Hrole.
    + destruct (insert_message_accepted now v role content (view s) Hrole)
        as (db1 & Hins & _).
      cbn [fmap list_fmap].
      erewrite perform_all_cons by by apply perform_insert.
      erewrite perform_all_cons by by apply perform_delete_old.
      erewrite perform_all_cons by apply perform_commit.
      unfold add_message, connection. rewrite Hdb, Hrole. simpl.
      rewrite Hins, Hself. done.
    + by rewrite add_message_rejected.
  - erewrite perform_all_cons by by apply perform_select_history.
    unfold get_history, connection. by rewrite Hdb.
  - erewrite perform_all_cons by by apply perform_delete.
    erewrite perform_all_cons by apply perform_commit.
    by rewrite (clear_open _ (view s)).
  - erewrite perform_all_cons by by apply perform_select_count.
    by rewrite (get_message_count_open _ (view s)).
Qed.

Lemma call_method_upsert max_messages self s now user_id username :
  INTEGER user_id = true →
  _db self = Some (view s) →
  (call_method max_messages s (now, Upsert user_id username)).1 = Returned ∧
  _db (apply self (now, Upsert user_id username))
  = Some (view (call_method max_messages s (now, Upsert user_id username)).2) ∧
  file (call_method max_messages s (now, Upsert user_id username)).2
  = view (call_method max_messages s (now, Upsert user_id username)).2.
Proof.
  intros Hv Hdb. unfold call_method, operations, apply.
  cbn [snd fst].
  erewrite perform_all_cons by by apply perform_upsert.
  erewrite perform_all_cons by apply perform_commit.
  by rewrite (upsert_user_open _ (view s)).
Qed.

(** A call about a user id SQLite cannot hold changes nothing. *)
Lemma call_method_unbindable max_messages s timed :
  INTEGER (request_user timed.2) = false →
  (call_method max_messages s timed).2 = s.
Proof.
  destruct timed as [now [v name|c]]; cbn [snd request_user]; intros Hv;
    unfold call_method, operations; cbn [snd fst].
  - rewrite perform_all_overflow; [done|]. simpl. by rewrite Hv.
  - destruct c as [v role content|v|v|v]; cbn [call_user coroutine] in *;
      try destruct (Literal_user_assistant role);
      cbn [fmap list_fmap]; try done;
      (rewrite perform_all_overflow; [done|]); simpl; by rewrite Hv.
Qed.

Lemma run_methods_snoc max_messages trace timed s :
  run_methods max_messages (trace ++ [timed]) s
  = (call_method max_messages (run_methods max_messages trace s) timed).2.
Proof. unfold run_methods. by rewrite foldl_app. Qed.

Lemma run_methods_run max_messages trace :
  INTEGER max_messages = true →
  _max_messages (run (bindable trace) (fresh max_messages)) = max_messages ∧
  _db (run (bindable trace) (fresh max_messages))
  = Some (view (run_methods max_messages trace opened)) ∧
  file (run_methods max_messages trace opened)
  = view (run_methods max_messages trace opened).
Proof.
  intros Hmax.
  induction trace as [|timed trace (Hself & Hdb & Hfile)] using rev_ind; [done|].
  unfold bindable in *. rewrite filter_app, run_methods_snoc.
  rewrite filter_cons, filter_nil. case_decide as Hv.
  - rewrite run_snoc. split; [by rewrite apply_max_messages|].
    destruct timed as [now [v name|c]]; simpl in Hv.
    + destruct (call_method_upsert max_messages _ _ now v name Hv Hdb)
        as (_ & ? & ?). done.
    + destruct (call_method_core max_messages _ _ now c Hmax Hv Hself Hdb)
        as (_ & ? & Hcommitted). split; [done|]. by apply Hcommitted.
  - rewrite app_nil_r, call_method_unbindable; [done|].
    by apply not_true_is_false.
Qed.

(** Every method that changes the database commits before it returns, and
    commits nowhere else.  With a [max_messages] SQLite can hold, after any
    calls on a fresh store the file holds exactly what the connection sees,
    which is what the methods leave for the calls whose user id SQLite can
    hold (the others raise before any statement runs); if the connection is
    closed at an await point inside a call, the file is as it was before
    that call (neither the INSERT nor the DELETE of an [add_message] is in
    it); and [close] followed by [init] on the file gives back the store,
    with the same users and messages. *)
Theorem file_holds_completed_calls max_messages trace timed p q :
  INTEGER max_messages = true →
  operations max_messages timed = p ++ q →
  q ≠ [] →
  file (run_methods max_messages trace opened)
  = view (run_methods max_messages trace opened)
  ∧ SQLiteDialogHistory._db
      (SQLiteDialogHistory.run (bindable trace)
         (SQLiteDialogHistory.fresh max_messages))
    = Some (file (run_methods max_messages trace opened))
  ∧ file (perform_all p Returned (run_methods max_messages trace opened)).2
    = file (run_methods max_messages trace opened)
  ∧ SQLiteDialogHistory.init
      (SQLiteDialogHistory.close
         (SQLiteDialogHistory.run (bindable trace)
            (SQLiteDialogHistory.fresh max_messages)))
      (Some (file (perform_all p Returned
                     (run_methods max_messages trace opened)).2))
    = SQLiteDialogHistory.run (bindable trace)
        (SQLiteDialogHistory.fresh max_messages).
Proof.
  intros Hmax Hops Hq.
  destruct (run_methods_run max_messages trace Hmax) as (Hself & Hdb & Hfile).
  pose proof (perform_all_no_commit p Returned
                (run_methods max_messages trace opened)
                (operations_commit_last _ _ _ _ Hops Hq)) as Hp.
  split; [done|]. split; [by rewrite Hfile|]. split; [done|].
  rewrite Hp, Hfile. unfold init, close. simpl.
  destruct (run (bindable trace) (fresh max_messages)) as [n d].
  simpl in *. by subst.
Qed.

Lemma file_holds_completed_calls_witness :
  file (run_methods 1
          [(1, Core (AddMessage 42 "user" "a"));
           (2, Core (AddMessage (2 ^ 63) "user" "x"))] opened)
  = view (run_methods 1
            [(1, Core (AddMessage 42 "user" "a"));
             (2, Core (AddMessage (2 ^ 63) "user" "x"))] opened)
  ∧ SQLiteDialogHistory._db
      (SQLiteDialogHistory.run
         (bindable [(1, Core (AddMessage 42 "user" "a"));
                    (2, Core (AddMessage (2 ^ 63) "user" "x"))])
         (SQLiteDialogHistory.fresh 1))
    = Some (file (run_methods 1
                    [(1, Core (AddMessage 42 "user" "a"));
                     (2, Core (AddMessage (2 ^ 63) "user" "x"))] opened))
  ∧ file (perform_all
            [Statement (InsertMessage 3 42 "assistant" "b");
             Statement (DeleteOldMessages 42 1)]
            Returned
            (run_methods 1
               [(1, Core (AddMessage 42 "user" "a"));
                (2, Core (AddMessage (2 ^ 63) "user" "x"))] opened)).2
    = file (run_methods 1
              [(1, Core (AddMessage 42 "user" "a"));
               (2, Core (AddMessage (2 ^ 63) "user" "x"))] opened)
  ∧ SQLiteDialogHistory.init
      (SQLiteDialogHistory.close
         (SQLiteDialogHistory.run
            (bindable [(1, Core (AddMessage 42 "user" "a"));
                       (2, Core (AddMessage (2 ^ 63) "user" "x"))])
            (SQLiteDialogHistory.fresh 1)))
      (Some (file (perform_all
                     [Statement (InsertMessage 3 42 "assistant" "b");
                      Statement (DeleteOldMessages 42 1)]
                     Returned
                     (run_methods 1
                        [(1, Core (AddMessage 42 "user" "a"));
                         (2, Core (AddMessage (2 ^ 63) "user" "x"))] opened)).2))
    = SQLiteDialogHistory.run
        (bindable [(1, Core (AddMessage 42 "user" "a"));
                   (2, Core (AddMessage (2 ^ 63) "user" "x"))])
        (SQLiteDialogHistory.fresh 1).
Proof.
  apply (file_holds_completed_calls 1
           [(1, Core (AddMessage 42 "user" "a"));
            (2, Core (AddMessage (2 ^ 63) "user" "x"))]
           (3, Core (AddMessage 42 "assistant" "b"))
           [Statement (InsertMessage 3 42 "assistant" "b");
            Statement (DeleteOldMessages 42 1)]
           [Statement Commit]).
  - reflexivity.
  - reflexivity.
  - discriminate.
Defined.

(** With a [max_messages] SQLite cannot hold (from [2 ^ 63] on, or below
    [- 2 ^ 63]), an [add_message] with one of the two roles for a user id
    SQLite can hold runs its INSERT and then raises [OverflowError] binding
    the LIMIT of its DELETE: nothing is trimmed and nothing is committed,
    so the connection sees the new row and the file does not.  The row
    stays in the open transaction, and the commit of the next call that
    changes the database, a [clear] for any user, writes it to the file. *)
Theorem overflowing_limit_skips_trim_and_commit max_messages s now user_id role
    content later v :
  INTEGER max_messages = false →
  INTEGER user_id = true →
  INTEGER v = true →
  chat_role role →
  ∃ db,
    SQLiteDialogHistory.insert_message now user_id role content (view s) = Ok db
    ∧ SQLiteDialogHistory.messages db
      = SQLiteDialogHistory.messages (view s)
        ++ [{| m_id := SQLiteDialogHistory.sqlite_sequence (view s) + 1;
               m_user_id := user_id; m_role := role; m_content := content;
               m_created_at := now |}]
    ∧ call_method max_messages s (now, Core (AddMessage user_id role content))
      = (Raised OverflowError, {| view := db; file := file s |})
    ∧ call_method max_messages {| view := db; file := file s |} (later, Core (Clear v))
      = (Returned,
         {| view := SQLiteDialogHistory.delete_messages v db;
            file := SQLiteDialogHistory.delete_messages v db |}).
Proof.
  intros Hmax Hu Hv Hrole%Literal_user_assistant_chat_role.
  destruct (insert_message_accepted now user_id role content (view s) Hrole)
    as (db & Hins & _ & Hmsgs & _).
  exists db. split; [done|]. split; [done|].
  unfold call_method, operations. cbn [snd fst coroutine]. rewrite Hrole.
  cbn [fmap list_fmap]. split.
  - erewrite perform_all_cons by by apply perform_insert.
    rewrite perform_all_overflow; [done|]. simpl. by rewrite Hu, Hmax.
  - erewrite perform_all_cons by by apply perform_delete.
    by erewrite perform_all_cons by apply perform_commit.
Qed.

Lemma overflowing_limit_skips_trim_and_commit_witness :
  ∃ db,
    SQLiteDialogHistory.insert_message 1 42 "user" "a" (view opened) = Ok db
    ∧ SQLiteDialogHistory.messages db
      = SQLiteDialogHistory.messages (view opened)
        ++ [{| m_id := SQLiteDialogHistory.sqlite_sequence (view opened) + 1;
               m_user_id := 42; m_role := "user"; m_content := "a";
               m_created_at := 1 |}]
    ∧ call_method (2 ^ 63) opened (1, Core (AddMessage 42 "user" "a"))
      = (Raised OverflowError, {| view := db; file := file opened |})
    ∧ call_method (2 ^ 63) {| view := db; file := file opened |} (2, Core (Clear 7))
      = (Returned,
         {| view := SQLiteDialogHistory.delete_messages 7 db;
            file := SQLiteDialogHistory.delete_messages 7 db |}).
Proof.
  apply (overflowing_limit_skips_trim_and_commit (2 ^ 63) opened 1 42 "user" "a" 2 7).
  - reflexivity.
  - reflexivity.
  - reflexivity.
  - left. reflexivity.
Defined.

(** ** The two stores compared *)

Lemma answers_responses max_messages cs self s :
  INTEGER max_messages = true →
  Forall (λ timed, INTEGER (call_user timed.2) = true) cs →
  _max_messages self = max_messages →
  _db self = Some (view s) →
  answers max_messages cs s = SQLiteDialogHistory.responses cs self.
Proof.
  intros Hmax Hcs. revert self s.
  induction Hcs as [|[now c] cs Hc _ IH]; intros self s Hself Hdb; [done|].
  destruct (call_method_core max_messages self s now c Hmax Hc Hself Hdb)
    as (Hr & Hdb' & _).
  pose proof (apply_max_messages self (now, Core c)) as Hself'.
  unfold apply in Hself'. simpl in *.
  destruct (call_method max_messages s (now, Core c)) as [r s'].
  destruct (step now c self) as [r' self']. simpl in *. subst r'.
  f_equal. apply IH; congruence.
Qed.

(** C10, as the claim states it, fails outside a range of limits and of
    user ids.  With [max_messages = 0] the SQLite store keeps nothing
    ([LIMIT 0]) and the in-memory store keeps everything
    ([messages[-0:]]); with [max_messages = -1] the SQLite store keeps
    everything (a negative LIMIT is no limit) and the in-memory store
    drops the oldest message ([messages[1:]]).  With [max_messages = 2 ^ 63]
    the [add_message] of the SQLite store raises [OverflowError] binding
    the LIMIT, after its INSERT has run, and with a user id of [2 ^ 63]
    every call of the SQLite store raises it; the in-memory store, which
    holds any [int], returns. *)
Lemma stores_differ_out_of_range :
  (answers 0 [(1, AddMessage 1 "user" "a"); (2, GetHistory 1)] opened
   = [Returned; History []]
   ∧ SQLiteDialogHistory.responses
       [(1, AddMessage 1 "user" "a"); (2, GetHistory 1)] (SQLiteDialogHistory.fresh 0)
     = [Returned; History []]
   ∧ DialogHistory.responses
       [AddMessage 1 "user" "a"; GetHistory 1] (DialogHistory.__init__ 0)
     = [Returned; History [("user", "a")]%string])
  ∧ (answers (-1) [(1, AddMessage 1 "user" "a"); (2, GetHistory 1)] opened
     = [Returned; History [("user", "a")]%string]
     ∧ SQLiteDialogHistory.responses
         [(1, AddMessage 1 "user" "a"); (2, GetHistory 1)]
         (SQLiteDialogHistory.fresh (-1))
       = [Returned; History [("user", "a")]%string]
     ∧ DialogHistory.responses
         [AddMessage 1 "user" "a"; GetHistory 1] (DialogHistory.__init__ (-1))
       = [Returned; History []])
  ∧ (answers (2 ^ 63) [(1, AddMessage 1 "user" "a"); (2, GetHistory 1)] opened
     = [Raised OverflowError; History [("user", "a")]%string]
     ∧ DialogHistory.responses
         [AddMessage 1 "user" "a"; GetHistory 1] (DialogHistory.__init__ (2 ^ 63))
       = [Returned; History [("user", "a")]%string])
  ∧ (answers 1 [(1, AddMessage (2 ^ 63) "user" "a"); (2, GetHistory (2 ^ 63))] opened
     = [Raised OverflowError; Raised OverflowError]
     ∧ DialogHistory.responses
         [AddMessage (2 ^ 63) "user" "a"; GetHistory (2 ^ 63)]
         (DialogHistory.__init__ 1)
       = [Returned; History [("user", "a")]%string]).
Proof. repeat split; by vm_compute. Qed.

(** C10, amended.  For every [max_messages] from 1 up to the largest
    INTEGER of SQLite and every sequence of calls of [add_message],
    [get_history], [clear] and [get_message_count] about user ids SQLite
    can hold, made at any times and with any roles and contents (roles
    outside the two literals included), a fresh SQLite store and a new
    in-memory store answer every call alike: the calls awaited on the
    connection, with their parameters bound, and the methods they run. *)
Theorem stores_agree_within_range max_messages (cs : list (Z * call)) :
  1 ≤ max_messages →
  INTEGER max_messages = true →
  Forall (λ timed, INTEGER (call_user timed.2) = true) cs →
  answers max_messages cs opened
  = DialogHistory.responses cs.*2 (DialogHistory.__init__ max_messages)
  ∧ SQLiteDialogHistory.responses cs (SQLiteDialogHistory.fresh max_messages)
    = DialogHistory.responses cs.*2 (DialogHistory.__init__ max_messages).
Proof.
  intros Hmax Hint Hcs.
  rewrite (answers_responses max_messages cs (fresh max_messages)) by done.
  split; eapply sim_responses; done || apply sim_fresh.
Qed.

Lemma stores_agree_within_range_witness :
  answers 1
    [(1, AddMessage 42 "user" "a"); (2, AddMessage 42 "assistant" "b");
     (3, AddMessage 42 "system" "c"); (4, GetHistory 42); (5, Clear 42);
     (6, GetMessageCount 42)]
    opened
  = DialogHistory.responses
      [(1, AddMessage 42 "user" "a"); (2, AddMessage 42 "assistant" "b");
       (3, AddMessage 42 "system" "c"); (4, GetHistory 42); (5, Clear 42);
       (6, GetMessageCount 42)].*2
      (DialogHistory.__init__ 1)
  ∧ SQLiteDialogHistory.responses
      [(1, AddMessage 42 "user" "a"); (2, AddMessage 42 "assistant" "b");
       (3, AddMessage 42 "system" "c"); (4, GetHistory 42); (5, Clear 42);
       (6, GetMessageCount 42)]
      (SQLiteDialogHistory.fresh 1)
    = DialogHistory.responses
        [(1, AddMessage 42 "user" "a"); (2, AddMessage 42 "assistant" "b");
         (3, AddMessage 42 "system" "c"); (4, GetHistory 42); (5, Clear 42);
         (6, GetMessageCount 42)].*2
        (DialogHistory.__init__ 1).
Proof.
  apply (stores_agree_within_range 1).
  - lia.
  - reflexivity.
  - repeat constructor.
Defined.

(** ** Unknown users *)

(** C6, as the claim states it, fails for a user that has stored messages
    and no user record: [add_message] asks for no record (the foreign key
    is not enforced) and the reads never look at [users].  After one
    [add_message] for user 99 on a fresh store nobody is registered, and
    the reads give that message and a count of 1.  A user id SQLite cannot
    hold is unknown to the store as well, and both reads raise for it. *)
Lemma reads_ignore_user_records :
  SQLiteDialogHistory.users
    (view (run_methods 20 [(1, Core (AddMessage 99 "user" "x"))] opened)) !! 99
  = None
  ∧ SQLiteDialogHistory.get_all_user_ids
      (SQLiteDialogHistory.run [(1, Core (AddMessage 99 "user" "x"))]
         (SQLiteDialogHistory.fresh 20))
    = Ok []
  ∧ answers 20
      [(1, AddMessage 99 "user" "x"); (2, GetHistory 99); (3, GetMessageCount 99)]
      opened
    = [Returned; History [("user", "x")]%string; Count 1]
  ∧ SQLiteDialogHistory.responses
      [(1, AddMessage 99 "user" "x"); (2, GetHistory 99); (3, GetMessageCount 99)]
      (SQLiteDialogHistory.fresh 20)
    = [Returned; History [("user", "x")]%string; Count 1]
  ∧ answers 20 [(1, GetHistory (2 ^ 63)); (2, GetMessageCount (2 ^ 63))] opened
    = [Raised OverflowError; Raised OverflowError].
Proof. repeat split; by vm_compute. Qed.

(** C6, amended.  A user id SQLite can hold for which no message is
    stored, with or without a record in [users], is no error: on an open
    connection [get_history] returns the empty list and
    [get_message_count] returns 0, and nothing changes; so does the
    in-memory store for a user it holds no message of.  For no user id
    SQLite can hold does either read raise: it answers the messages stored
    for that id, in rowid order, and their number, read off the table of
    messages alone (two databases with the same messages give the same
    answers, whatever their user records).  For a user id SQLite cannot
    hold both reads raise [OverflowError]. *)
Theorem unknown_user_is_not_an_error max_messages self s m user_id now :
  INTEGER user_id = true →
  user_rows user_id (view s) = [] →
  entries user_id m = [] →
  call_method max_messages s (now, Core (GetHistory user_id)) = (History [], s)
  ∧ call_method max_messages s (now, Core (GetMessageCount user_id)) = (Count 0, s)
  ∧ SQLiteDialogHistory.get_history
      (SQLiteDialogHistory.with_db self (view s)) user_id = Ok []
  ∧ SQLiteDialogHistory.get_message_count
      (SQLiteDialogHistory.with_db self (view s)) user_id = Ok 0
  ∧ (DialogHistory.get_history m user_id).1 = []
  ∧ (DialogHistory.get_message_count m user_id).1 = 0
  ∧ (∀ v s',
       INTEGER v = true →
       SQLiteDialogHistory.messages (view s') = SQLiteDialogHistory.messages (view s) →
       call_method max_messages s (now, Core (GetHistory v))
       = (History (role_content <$> SQLiteDialogHistory.select_history_rows v (view s)),
          s)
       ∧ call_method max_messages s (now, Core (GetMessageCount v))
         = (Count (SQLiteDialogHistory.count_messages v (view s)), s)
       ∧ call_method max_messages s' (now, Core (GetHistory v))
         = (History (role_content <$> SQLiteDialogHistory.select_history_rows v (view s)),
            s')
       ∧ call_method max_messages s' (now, Core (GetMessageCount v))
         = (Count (SQLiteDialogHistory.count_messages v (view s)), s'))
  ∧ (∀ v,
       INTEGER v = false →
       call_method max_messages s (now, Core (GetHistory v))
       = (Raised OverflowError, s)
       ∧ call_method max_messages s (now, Core (GetMessageCount v))
         = (Raised OverflowError, s)).
Proof.
  intros Hint Hsql Hmem.
  assert (∀ v s0, INTEGER v = true →
    call_method max_messages s0 (now, Core (GetHistory v))
    = (History (role_content <$> select_history_rows v (view s0)), s0)
    ∧ call_method max_messages s0 (now, Core (GetMessageCount v))
      = (Count (count_messages v (view s0)), s0)) as Hreads.
  { intros v s0 Hv. unfold call_method, operations.
    cbn [snd fst coroutine fmap list_fmap]. split.
    - by erewrite perform_all_cons by by apply perform_select_history.
    - by erewrite perform_all_cons by by apply perform_select_count. }
  destruct (Hreads user_id s Hint) as [-> ->].
  rewrite select_history_rows_none, count_messages_user_rows, Hsql by done.
  split; [done|]. split; [done|].
  split; [|split; [|split; [|split; [|split]]]].
  - unfold get_history. simpl. by rewrite select_history_rows_none.
  - unfold get_message_count. simpl. by rewrite count_messages_user_rows, Hsql.
  - destruct (mem_get_history_spec m user_id) as (-> & _). by rewrite Hmem.
  - destruct (mem_get_message_count_spec m user_id) as (-> & _). by rewrite Hmem.
  - intros v s' Hv Hmsgs.
    destruct (Hreads v s Hv) as [-> ->]. destruct (Hreads v s' Hv) as [-> ->].
    unfold select_history_rows, count_messages. by rewrite Hmsgs.
  - intros v Hv. unfold call_method, operations.
    cbn [snd fst coroutine fmap list_fmap].
    split; (rewrite perform_all_overflow; [done|]); simpl; by rewrite Hv.
Qed.

Lemma unknown_user_is_not_an_error_witness :
  call_method 20 opened (1, Core (GetHistory 99)) = (History [], opened)
  ∧ call_method 20 opened (1, Core (GetMessageCount 99)) = (Count 0, opened)
  ∧ SQLiteDialogHistory.get_history
      (SQLiteDialogHistory.with_db (SQLiteDialogHistory.__init__ 20) (view opened)) 99
    = Ok []
  ∧ SQLiteDialogHistory.get_message_count
      (SQLiteDialogHistory.with_db (SQLiteDialogHistory.__init__ 20) (view opened)) 99
    = Ok 0
  ∧ (DialogHistory.get_history (DialogHistory.__init__ 20) 99).1 = []
  ∧ (DialogHistory.get_message_count (DialogHistory.__init__ 20) 99).1 = 0
  ∧ (∀ v s',
       INTEGER v = true →
       SQLiteDialogHistory.messages (view s')
       = SQLiteDialogHistory.messages (view opened) →
       call_method 20 opened (1, Core (GetHistory v))
       = (History (role_content <$>
                     SQLiteDialogHistory.select_history_rows v (view opened)),
          opened)
       ∧ call_method 20 opened (1, Core (GetMessageCount v))
         = (Count (SQLiteDialogHistory.count_messages v (view opened)), opened)
       ∧ call_method 20 s' (1, Core (GetHistory v))
         = (History (role_content <$>
                       SQLiteDialogHistory.select_history_rows v (view opened)),
            s')
       ∧ call_method 20 s' (1, Core (GetMessageCount v))
         = (Count (SQLiteDialogHistory.count_messages v (view opened)), s'))
  ∧ (∀ v,
       INTEGER v = false →
       call_method 20 opened (1, Core (GetHistory v)) = (Raised OverflowError, opened)
       ∧ call_method 20 opened (1, Core (GetMessageCount v))
         = (Raised OverflowError, opened)).
Proof.
  apply (unknown_user_is_not_an_error 20 (SQLiteDialogHistory.__init__ 20) opened
           (DialogHistory.__init__ 20) 99 1);
    reflexivity.
Defined.

(** ** Registered users *)








(** ** Roles *)

Lemma insertion_log_roles user_id cs :
  Forall (λ msg, chat_role msg.1) (insertion_log user_id cs).
Proof.
  induction cs as [|c cs IH] using rev_ind; [constructor|].
  rewrite insertion_log_snoc. destruct c as [v role content|v|v|v]; simpl; try done.
  - case_decide; [|done].
    destruct (Literal_user_assistant role) eqn:Hrole; [|done].
    apply Forall_app. split; [done|].
    constructor; [|constructor]. by apply Literal_user_assistant_chat_role.
  - case_decide; [constructor|done].
Qed.

Lemma Forall_suffix {A} (P : A → Prop) (l1 l2 : list A) :
  l1 `suffix_of` l2 → Forall P l2 → Forall P l1.
Proof. intros [k ->] [_ ?]%Forall_app. done. Qed.


(** ** Writing and reading back *)

Lemma window_last {A} (n : Z) (l : list A) x :
  1 ≤ n → last (window n (l ++ [x])) = Some x.
Proof.
  intros Hn. unfold window, keep_last.
  rewrite (proj2 (Z.ltb_ge _ _)) by lia.
  rewrite length_app. simpl.
  rewrite drop_app_le by lia. apply last_snoc.
Qed.

(** With a limit from 1 up to the largest INTEGER of SQLite and a user id
    SQLite can hold, an [add_message] with one of the two roles returns,
    leaves nothing uncommitted, and is what [get_history] returns last: the
    history afterwards is the window over the history before followed by
    the new (role, content), with the content as it was given.  This holds
    on the connection of a SQLite store after any calls, and of every
    in-memory store with a limit of at least one. *)
Theorem add_message_read_back max_messages trace m now user_id role content :
  1 ≤ max_messages →
  INTEGER max_messages = true →
  INTEGER user_id = true →
  chat_role role →
  DialogHistory.max_messages m = max_messages →
  (∃ old s',
     (call_method max_messages (run_methods max_messages trace opened)
        (now, Core (GetHistory user_id))).1
     = History old ∧
     call_method max_messages (run_methods max_messages trace opened)
       (now, Core (AddMessage user_id role content))
     = (Returned, s') ∧
     file s' = view s' ∧
     (call_method max_messages s' (now, Core (GetHistory user_id))).1
     = History (window max_messages (old ++ [(role, content)])) ∧
     last (window max_messages (old ++ [(role, content)])) = Some (role, content))
  ∧ (∃ m',
       DialogHistory.add_message m user_id role content = Ok m' ∧
       (DialogHistory.get_history m' user_id).1
       = window max_messages
           ((DialogHistory.get_history m user_id).1 ++ [(role, content)]) ∧
       last (DialogHistory.get_history m' user_id).1 = Some (role, content)).
Proof.
  intros Hmax Hint Hu Hrole%Literal_user_assistant_chat_role Hm. split.
  - destruct (run_methods_run max_messages trace Hint) as (Hself & Hdb & Hfile).
    destruct (store_inv_run max_messages (bindable trace))
      as (_ & db & Hdb0 & Hwf & _).
    rewrite Hdb in Hdb0. injection Hdb0 as <-.
    set (s := run_methods max_messages trace opened) in *.
    set (self := run (bindable trace) (fresh max_messages)) in *.
    destruct (add_message_accepted self (view s) now user_id role content Hdb Hrole)
      as (db' & Hadd & _ & Hwf' & Huser & _).
    destruct (call_method_core max_messages self s now (GetHistory user_id)
                Hint Hu Hself Hdb) as (Hr0 & _ & _).
    destruct (call_method_core max_messages self s now
                (AddMessage user_id role content) Hint Hu Hself Hdb)
      as (Hr1 & Hdb1 & Hfile1).
    simpl in Hr0, Hr1, Hdb1.
    rewrite Hadd in Hr1, Hdb1. rewrite (get_history_open _ (view s)) in Hr0 by done.
    destruct (call_method max_messages s (now, Core (AddMessage user_id role content)))
      as [r s'].
    simpl in *. injection Hdb1 as Hview'. subst r.
    exists (role_content <$> user_rows user_id (view s)), s'.
    split; [done|]. split; [done|]. split; [by apply Hfile1|].
    split; [|by apply window_last].
    destruct (call_method_core max_messages (with_db self db') s' now
                (GetHistory user_id) Hint Hu Hself (f_equal Some Hview'))
      as (-> & _ & _).
    cbn [step]. rewrite (get_history_open _ db') by auto. simpl. f_equal.
    by rewrite Huser, Hself, window_fmap, fmap_app.
  - destruct (mem_add_message_accepted m user_id role content Hrole)
      as (m' & Hadd & _ & Huser & _).
    exists m'. split; [done|].
    destruct (mem_get_history_spec m' user_id) as (-> & _).
    destruct (mem_get_history_spec m user_id) as (-> & _).
    rewrite Huser, Hm, trimmed_window, window_fmap, fmap_app by done.
    split; [done|]. by apply window_last.
Qed.

Lemma add_message_read_back_witness :
  (∃ old s',
     (call_method 1
        (run_methods 1 [(1, Core (AddMessage 42 "user" "a"))] opened)
        (2, Core (GetHistory 42))).1
     = History old ∧
     call_method 1
       (run_methods 1 [(1, Core (AddMessage 42 "user" "a"))] opened)
       (2, Core (AddMessage 42 "assistant" "b"))
     = (Returned, s') ∧
     file s' = view s' ∧
     (call_method 1 s' (2, Core (GetHistory 42))).1
     = History (window 1 (old ++ [("assistant"%string, "b"%string)])) ∧
     last (window 1 (old ++ [("assistant"%string, "b"%string)]))
     = Some ("assistant"%string, "b"%string))
  ∧ (∃ m',
       DialogHistory.add_message (DialogHistory.__init__ 1) 42 "assistant" "b" = Ok m' ∧
       (DialogHistory.get_history m' 42).1
       = window 1
           ((DialogHistory.get_history (DialogHistory.__init__ 1) 42).1
              ++ [("assistant"%string, "b"%string)]) ∧
       last (DialogHistory.get_history m' 42).1
       = Some ("assistant"%string, "b"%string)).
Proof.
  apply (add_message_read_back 1 [(1, Core (AddMessage 42 "user" "a"))]
           (DialogHistory.__init__ 1) 2 42 "assistant" "b").
  - lia.
  - reflexivity.
  - reflexivity.
  - right. reflexivity.
  - reflexivity.
Defined.

(** ** One user's calls and another user's history *)

Lemma select_history_rows_user_rows v db db' :
  user_rows v db' = user_rows v db →
  select_history_rows v db' = select_history_rows v db.
Proof. unfold select_history_rows, user_rows. by intros ->. Qed.

Lemma step_other_user now c self db v :
  _db self = Some db →
  call_user c ≠ v →
  ∃ db', _db (step now c self).2 = Some db' ∧ user_rows v db' = user_rows v db.
Proof.
  intros Hdb Hv. destruct c as [u role content|u|u|u]; simpl in *.
  - destruct (Literal_user_assistant role) eqn:Hrole.
    + destruct (add_message_accepted self db now u role content Hdb Hrole)
        as (db' & -> & _ & _ & _ & Hother). exists db'. split; [done|].
      apply Hother. congruence.
    + rewrite add_message_rejected by done. by exists db.
  - unfold get_history, connection. rewrite Hdb. by exists db.
  - rewrite (clear_open _ db) by done. eexists. split; [done|].
    apply delete_messages_other. congruence.
  - rewrite (get_message_count_open _ db) by done. by exists db.
Qed.

Lemma step_closed now c self : _db self = None → (step now c self).2 = self.
Proof.
  intros Hdb. destruct c as [u role content|u|u|u]; simpl;
    unfold add_message, get_history, clear, get_message_count, connection;
    rewrite Hdb; simpl; try done.
  by destruct (Literal_user_assistant role).
Qed.

(** A call about one user, whatever it is and whether or not it raises,
    changes nothing of what the reads return for any other user; and
    [upsert_user] changes no history at all, the user's own included. *)
Theorem calls_leave_other_users_alone self m now c v user_id username :
  call_user c ≠ v →
  SQLiteDialogHistory.get_history (SQLiteDialogHistory.step now c self).2 v
  = SQLiteDialogHistory.get_history self v
  ∧ SQLiteDialogHistory.get_message_count (SQLiteDialogHistory.step now c self).2 v
    = SQLiteDialogHistory.get_message_count self v
  ∧ (DialogHistory.get_history (DialogHistory.step c m).2 v).1
    = (DialogHistory.get_history m v).1
  ∧ (DialogHistory.get_message_count (DialogHistory.step c m).2 v).1
    = (DialogHistory.get_message_count m v).1
  ∧ SQLiteDialogHistory.get_history
      (SQLiteDialogHistory.apply self (now, Upsert user_id username)) v
    = SQLiteDialogHistory.get_history self v
  ∧ SQLiteDialogHistory.get_history
      (SQLiteDialogHistory.apply self (now, Upsert user_id username)) user_id
    = SQLiteDialogHistory.get_history self user_id.
Proof.
  intros Hv.
  assert (msg_pair <$> entries v (DialogHistory.step c m).2
          = msg_pair <$> entries v m) as Hmem.
  { rewrite mem_step_entries.
    destruct c as [u role content|u|u|u]; simpl in *; try done;
      by rewrite decide_False by done. }
  split; [|split; [|split; [|split; [|split]]]].
  - destruct (_db self) as [db|] eqn:Hdb.
    + destruct (step_other_user now c self db v Hdb Hv) as (db' & Hdb' & Hrows).
      unfold get_history, connection. rewrite Hdb, Hdb'. simpl.
      by rewrite (select_history_rows_user_rows v db db').
    + by rewrite step_closed.
  - destruct (_db self) as [db|] eqn:Hdb.
    + destruct (step_other_user now c self db v Hdb Hv) as (db' & Hdb' & Hrows).
      rewrite (get_message_count_open self db) by done.
      rewrite (get_message_count_open (step now c self).2 db') by done.
      by rewrite Hrows.
    + by rewrite step_closed.
  - destruct (mem_get_history_spec (DialogHistory.step c m).2 v) as (-> & _).
    by destruct (mem_get_history_spec m v) as (-> & _).
  - destruct (mem_get_message_count_spec (DialogHistory.step c m).2 v) as (-> & _).
    destruct (mem_get_message_count_spec m v) as (-> & _).
    by rewrite <- (length_fmap msg_pair), Hmem, length_fmap.
  - unfold apply, upsert_user, get_history, connection. simpl.
    destruct (_db self) as [db|] eqn:Hdb; simpl; by rewrite ?Hdb.
  - unfold apply, upsert_user, get_history, connection. simpl.
    destruct (_db self) as [db|] eqn:Hdb; simpl; by rewrite ?Hdb.
Qed.

Lemma calls_leave_other_users_alone_witness :
  SQLiteDialogHistory.get_history
    (SQLiteDialogHistory.step 1 (Clear 42) (SQLiteDialogHistory.fresh 20)).2 7
  = SQLiteDialogHistory.get_history (SQLiteDialogHistory.fresh 20) 7
  ∧ SQLiteDialogHistory.get_message_count
      (SQLiteDialogHistory.step 1 (Clear 42) (SQLiteDialogHistory.fresh 20)).2 7
    = SQLiteDialogHistory.get_message_count (SQLiteDialogHistory.fresh 20) 7
  ∧ (DialogHistory.get_history
       (DialogHistory.step (Clear 42) (DialogHistory.__init__ 20)).2 7).1
    = (DialogHistory.get_history (DialogHistory.__init__ 20) 7).1
  ∧ (DialogHistory.get_message_count
       (DialogHistory.step (Clear 42) (DialogHistory.__init__ 20)).2 7).1
    = (DialogHistory.get_message_count (DialogHistory.__init__ 20) 7).1
  ∧ SQLiteDialogHistory.get_history
      (SQLiteDialogHistory.apply (SQLiteDialogHistory.fresh 20) (1, Upsert 42 None)) 7
    = SQLiteDialogHistory.get_history (SQLiteDialogHistory.fresh 20) 7
  ∧ SQLiteDialogHistory.get_history
      (SQLiteDialogHistory.apply (SQLiteDialogHistory.fresh 20) (1, Upsert 42 None)) 42
    = SQLiteDialogHistory.get_history (SQLiteDialogHistory.fresh 20) 42.
Proof.
  apply (calls_leave_other_users_alone (SQLiteDialogHistory.fresh 20)
           (DialogHistory.__init__ 20) 1 (Clear 42) 7 42 None).
  discriminate.
Defined.

(** ** A store that is not open *)

(** Before [init] and after [close] every method raises the assertion
    error and the store stays as it is; only a role outside the two
    literals is refused first, by the parameter hint.  [close] leaves no
    connection, and closing again changes nothing. *)
Theorem closed_store_raises self other now user_id role content username timed :
  SQLiteDialogHistory._db self = None →
  SQLiteDialogHistory.upsert_user self now user_id username = Raise AssertionError
  ∧ SQLiteDialogHistory.get_history self user_id = Raise AssertionError
  ∧ SQLiteDialogHistory.clear self user_id = Raise AssertionError
  ∧ SQLiteDialogHistory.get_message_count self user_id = Raise AssertionError
  ∧ SQLiteDialogHistory.get_all_user_ids self = Raise AssertionError
  ∧ SQLiteDialogHistory.get_stats self now = Raise AssertionError
  ∧ SQLiteDialogHistory.add_message self now user_id role content
    = Raise (if Literal_user_assistant role
             then AssertionError else BeartypeCallHintParamViolation)
  ∧ SQLiteDialogHistory.apply self timed = self
  ∧ SQLiteDialogHistory.close self = self
  ∧ SQLiteDialogHistory._db (SQLiteDialogHistory.close other) = None
  ∧ SQLiteDialogHistory.close (SQLiteDialogHistory.close other)
    = SQLiteDialogHistory.close other.
Proof.
  intros Hdb.
  unfold upsert_user, get_history, clear, get_message_count, get_all_user_ids,
    get_stats, add_message, connection.
  rewrite Hdb. simpl. repeat (split; [done|]).
  split; [by destruct (Literal_user_assistant role)|].
  split; [|split; [|done]].
  - destruct timed as [t [v name|c]]; unfold apply; simpl.
    + unfold upsert_user, connection. by rewrite Hdb.
    + by apply step_closed.
  - destruct self. simpl in *. by subst.
Qed.

Lemma closed_store_raises_witness :
  SQLiteDialogHistory.upsert_user (SQLiteDialogHistory.__init__ 20) 1 42 None
  = Raise AssertionError
  ∧ SQLiteDialogHistory.get_history (SQLiteDialogHistory.__init__ 20) 42
    = Raise AssertionError
  ∧ SQLiteDialogHistory.clear (SQLiteDialogHistory.__init__ 20) 42
    = Raise AssertionError
  ∧ SQLiteDialogHistory.get_message_count (SQLiteDialogHistory.__init__ 20) 42
    = Raise AssertionError
  ∧ SQLiteDialogHistory.get_all_user_ids (SQLiteDialogHistory.__init__ 20)
    = Raise AssertionError
  ∧ SQLiteDialogHistory.get_stats (SQLiteDialogHistory.__init__ 20) 1
    = Raise AssertionError
  ∧ SQLiteDialogHistory.add_message (SQLiteDialogHistory.__init__ 20) 1 42 "system" "x"
    = Raise (if Literal_user_assistant "system"
             then AssertionError else BeartypeCallHintParamViolation)
  ∧ SQLiteDialogHistory.apply (SQLiteDialogHistory.__init__ 20) (1, Core (Clear 42))
    = SQLiteDialogHistory.__init__ 20
  ∧ SQLiteDialogHistory.close (SQLiteDialogHistory.__init__ 20)
    = SQLiteDialogHistory.__init__ 20
  ∧ SQLiteDialogHistory._db
      (SQLiteDialogHistory.close (SQLiteDialogHistory.fresh 20)) = None
  ∧ SQLiteDialogHistory.close
      (SQLiteDialogHistory.close (SQLiteDialogHistory.fresh 20))
    = SQLiteDialogHistory.close (SQLiteDialogHistory.fresh 20).
Proof.
  apply (closed_store_raises (SQLiteDialogHistory.__init__ 20)
           (SQLiteDialogHistory.fresh 20) 1 42 "system" "x" None
           (1, Core (Clear 42))).
  reflexivity.
Defined.

(** ** A negative limit *)



(** ** Bounds on the statistics *)

Lemma length_le_groups {A} (f : A → Z) (n : nat) (l : list A) :
  (∀ u, length (filter (λ x, f x = u) l) ≤ n)%nat →
  (length l ≤ n * size (list_to_set (f <$> l) : gset Z))%nat.
Proof.
  remember (length l) as k eqn:Hk. revert l Hk.
  induction k as [k IH] using lt_wf_ind. intros l -> Hgroups.
  destruct l as [|x l']; [simpl; lia|].
  remember (x :: l') as l eqn:Hl. set (u := f x).
  assert (x ∈ l) as Hx by (subst l; left).
  pose proof (Permutation_length (filter_app_complement (λ y, f y = u) l)) as Hlen.
  rewrite length_app in Hlen.
  assert (length (filter (λ y, ¬ f y = u) l) < length l)%nat as Hshort.
  { apply (length_filter_lt _ _ x); [done|]. unfold u. tauto. }
  specialize (IH _ Hshort (filter (λ y, ¬ f y = u) l) eq_refl).
  assert (list_to_set (f <$> l)
          = ({[u]} : gset Z) ∪ list_to_set (f <$> filter (λ y, ¬ f y = u) l)) as Hset.
  { apply set_eq. intros v.
    rewrite elem_of_union, elem_of_singleton, !elem_of_list_to_set,
      !list_elem_of_fmap. split.
    - intros (y & -> & Hy). destruct (decide (f y = u)); [by left|right].
      exists y. split; [done|]. by apply list_elem_of_filter.
    - intros [->|(y & -> & [_ Hy]%list_elem_of_filter)]; [by exists x|by exists y]. }
  rewrite Hset, size_union, size_singleton.
  - assert (length (filter (λ y, ¬ f y = u) l)
            ≤ n * size (list_to_set (f <$> filter (λ y, ¬ f y = u) l) : gset Z))%nat
      as Hrest.
    { apply IH. intros v. etrans; [|apply (Hgroups v)].
      rewrite list_filter_filter.
      rewrite (list_filter_iff _ (λ y, ¬ f y = u ∧ f y = v)) by (intros; tauto).
      rewrite <- list_filter_filter. apply length_filter. }
    pose proof (Hgroups u). lia.
  - intros v ->%elem_of_singleton
      (y & Hy & [Hne _]%list_elem_of_filter)%elem_of_list_to_set%list_elem_of_fmap.
    by apply Hne.
Qed.

Lemma length_by_role (l : list MessageRow) :
  Forall (λ m, chat_role (m_role m)) l →
  length l
  = (length (filter (λ m, m_role m = "user"%string) l)
     + length (filter (λ m, m_role m = "assistant"%string) l))%nat.
Proof.
  induction 1 as [|m l [Hm|Hm] _ IH]; [done| |];
    rewrite !filter_cons, Hm; simpl; rewrite IH;
    repeat case_decide; try done; simpl; lia.
Qed.

Lemma run_rows_roles max_messages trace db :
  _db (run trace (fresh max_messages)) = Some db →
  Forall (λ m, chat_role (m_role m)) (messages db).
Proof.
  intros Hdb.
  destruct (store_inv_run max_messages trace) as (_ & db' & Hdb' & _ & Hrows).
  assert (db' = db) as -> by congruence.
  apply Forall_forall. intros m Hm.
  assert (role_content m ∈ role_content <$> user_rows (m_user_id m) db) as Hin.
  { apply list_elem_of_fmap_2, list_elem_of_filter. done. }
  rewrite Hrows in Hin.
  pose proof (Forall_suffix _ _ _ (window_suffix max_messages _)
                (insertion_log_roles (m_user_id m) (core_calls trace))) as Hroles.
  rewrite Forall_forall in Hroles. apply (Hroles _ Hin).
Qed.

(** After any calls on a fresh store with [max_messages] not negative,
    [get_stats] reports: a total of messages that is the sum of those of
    role ['user'] and those of role ['assistant']; at most [max_messages]
    messages for each user that has any, so the table never grows beyond
    [max_messages] times the number of such users; and no more users active
    today than users with messages. *)
Theorem get_stats_bounds max_messages trace now :
  0 ≤ max_messages →
  ∃ st db,
    SQLiteDialogHistory.get_stats
      (SQLiteDialogHistory.run trace (SQLiteDialogHistory.fresh max_messages)) now
    = Ok st ∧
    SQLiteDialogHistory._db
      (SQLiteDialogHistory.run trace (SQLiteDialogHistory.fresh max_messages))
    = Some db ∧
    total_messages st
    = user_messages st
      + Z.of_nat (length (filter (λ m, SQLiteDialogHistory.m_role m = "assistant"%string)
                                 (SQLiteDialogHistory.messages db))) ∧
    0 ≤ user_messages st ≤ total_messages st ∧
    total_messages st ≤ max_messages * Z.of_nat (size (message_users db)) ∧
    0 ≤ active_today st ≤ Z.of_nat (size (message_users db)).
Proof.
  intros Hmax.
  destruct (store_inv_run max_messages trace) as (_ & db & Hdb & Hwf & Hrows).
  unfold get_stats, connection. rewrite Hdb. simpl.
  eexists _, db. split; [done|]. split; [done|]. simpl.
  pose proof (length_by_role _ (run_rows_roles max_messages trace db Hdb)) as Hsum.
  split; [lia|]. split; [lia|]. split.
  - pose proof (length_le_groups m_user_id (Z.to_nat max_messages) (messages db))
      as Hgroups.
    unfold message_users.
    assert (∀ u, (length (filter (λ x, m_user_id x = u) (messages db))
                  ≤ Z.to_nat max_messages)%nat) as Hper.
    { intros u. fold (user_rows u db).
      rewrite <- (length_fmap role_content), Hrows.
      pose proof (window_length max_messages
                    (insertion_log u (core_calls trace)) Hmax). lia. }
    specialize (Hgroups Hper). nia.
  - rewrite length_remove_dups_size. split; [lia|].
    apply inj_le, subseteq_size. intros u.
    unfold message_users. rewrite !elem_of_list_to_set, !list_elem_of_fmap.
    intros (m & -> & [_ Hm]%list_elem_of_filter). by exists m.
Qed.

Lemma get_stats_bounds_witness :
  ∃ st db,
    SQLiteDialogHistory.get_stats
      (SQLiteDialogHistory.run
         [(1, Core (AddMessage 42 "user" "a")); (2, Core (AddMessage 42 "assistant" "b"))]
         (SQLiteDialogHistory.fresh 1)) 3
    = Ok st ∧
    SQLiteDialogHistory._db
      (SQLiteDialogHistory.run
         [(1, Core (AddMessage 42 "user" "a")); (2, Core (AddMessage 42 "assistant" "b"))]
         (SQLiteDialogHistory.fresh 1))
    = Some db ∧
    total_messages st
    = user_messages st
      + Z.of_nat (length (filter (λ m, SQLiteDialogHistory.m_role m = "assistant"%string)
                                 (SQLiteDialogHistory.messages db))) ∧
    0 ≤ user_messages st ≤ total_messages st ∧
    total_messages st ≤ 1 * Z.of_nat (size (message_users db)) ∧
    0 ≤ active_today st ≤ Z.of_nat (size (message_users db)).
Proof. apply (get_stats_bounds 1); lia. Defined.

(** ** Reads leave no trace *)

Lemma mem_step_equiv c m1 m2 :
  mem_equiv m1 m2 →
  (DialogHistory.step c m1).1 = (DialogHistory.step c m2).1 ∧
  mem_equiv (DialogHistory.step c m1).2 (DialogHistory.step c m2).2.
Proof.
  intros [Hmax Hent]. destruct c as [v role content|v|v|v]; simpl.
  - destruct (Literal_user_assistant role) eqn:Hrole.
    + destruct (mem_add_message_accepted m1 v role content Hrole)
        as (m1' & -> & Hmax1 & Huser1 & Hother1).
      destruct (mem_add_message_accepted m2 v role content Hrole)
        as (m2' & -> & Hmax2 & Huser2 & Hother2).
      simpl. split; [done|]. split; [congruence|]. intros u.
      destruct (decide (u = v)) as [->|Hu].
      * by rewrite Huser1, Huser2, Hmax, Hent.
      * by rewrite Hother1, Hother2.
    + by rewrite !mem_add_message_rejected.
  - destruct (mem_get_history_spec m1 v) as (Hl1 & Hmax1 & Hsame1).
    destruct (mem_get_history_spec m2 v) as (Hl2 & Hmax2 & Hsame2).
    destruct (DialogHistory.get_history m1 v), (DialogHistory.get_history m2 v).
    simpl in *. split; [by rewrite Hl1, Hl2, Hent|].
    split; [congruence|]. intros u. by rewrite Hsame1, Hsame2.
  - split; [done|]. split; [done|]. intros u.
    destruct (decide (u = v)) as [->|Hu].
    + by rewrite !mem_clear_user.
    + by rewrite !mem_clear_other.
  - destruct (mem_get_message_count_spec m1 v) as (Hn1 & Hmax1 & Hsame1).
    destruct (mem_get_message_count_spec m2 v) as (Hn2 & Hmax2 & Hsame2).
    destruct (DialogHistory.get_message_count m1 v),
      (DialogHistory.get_message_count m2 v).
    simpl in *. split; [by rewrite Hn1, Hn2, Hent|].
    split; [congruence|]. intros u. by rewrite Hsame1, Hsame2.
Qed.

Lemma mem_read_equiv c m :
  is_read c = true → mem_equiv (DialogHistory.step c m).2 m.
Proof.
  destruct c as [v role content|v|v|v]; try done; intros _; simpl.
  - destruct (mem_get_history_spec m v) as (_ & Hmax & Hsame).
    by destruct (DialogHistory.get_history m v).
  - destruct (mem_get_message_count_spec m v) as (_ & Hmax & Hsame).
    by destruct (DialogHistory.get_message_count m v).
Qed.

Lemma mem_equiv_trans m1 m2 m3 : mem_equiv m1 m2 → mem_equiv m2 m3 → mem_equiv m1 m3.
Proof. intros [? H12] [? H23]. split; [congruence|]. intros u. by rewrite H12. Qed.

Lemma mem_responses_equiv cs m1 m2 :
  mem_equiv m1 m2 → DialogHistory.responses cs m1 = DialogHistory.responses cs m2.
Proof.
  revert m1 m2. induction cs as [|c cs IH]; intros m1 m2 Hequiv; [done|].
  simpl. destruct (mem_step_equiv c m1 m2 Hequiv) as [Hr Hequiv'].
  destruct (DialogHistory.step c m1) as [r1 m1'].
  destruct (DialogHistory.step c m2) as [r2 m2']. simpl in *. subst r2.
  f_equal. by apply IH.
Qed.

Lemma mem_run_reads_equiv reads m :
  Forall (λ c, is_read c = true) reads → mem_equiv (DialogHistory.run reads m) m.
Proof.
  intros Hreads. revert m.
  induction Hreads as [|c reads Hc _ IH]; intros m; [done|].
  simpl. eapply mem_equiv_trans; [apply IH|]. by apply mem_read_equiv.
Qed.

(** [get_history] and [get_message_count] of the in-memory store change
    the store, binding a missing key of the [defaultdict] to an empty list,
    and still change no later answer: after any reads every sequence of
    calls is answered, reads included, as if the reads had not been made,
    and every user is left with the same messages under the same limit. *)
Theorem reads_change_no_answer reads cs m :
  Forall (λ c, is_read c = true) reads →
  DialogHistory.responses cs (DialogHistory.run reads m) = DialogHistory.responses cs m
  ∧ DialogHistory.max_messages (DialogHistory.run reads m)
    = DialogHistory.max_messages m
  ∧ (∀ v, entries v (DialogHistory.run reads m) = entries v m)
  ∧ (∀ v, DialogHistory._history m !! v = None →
          (DialogHistory.step (GetHistory v) m).2 ≠ m
          ∧ (DialogHistory.step (GetMessageCount v) m).2 ≠ m).
Proof.
  intros Hreads. pose proof (mem_run_reads_equiv reads m Hreads) as Hequiv.
  split; [by apply mem_responses_equiv|].
  split; [apply Hequiv|]. split; [apply Hequiv|].
  intros v Hv.
  assert (∀ m' : DialogHistory.t,
            DialogHistory._history m' !! v = Some [] → m' ≠ m) as Hne.
  { intros m' Hm' ->. congruence. }
  split; apply Hne; simpl;
    unfold DialogHistory.get_history, DialogHistory.get_message_count,
      DialogHistory.getitem;
    rewrite Hv; simpl; by rewrite lookup_insert_eq.
Qed.

Lemma reads_change_no_answer_witness :
  DialogHistory.responses
    [AddMessage 7 "user" "a"; GetHistory 7; GetMessageCount 8]
    (DialogHistory.run [GetHistory 7; GetMessageCount 8] (DialogHistory.__init__ 2))
  = DialogHistory.responses
      [AddMessage 7 "user" "a"; GetHistory 7; GetMessageCount 8]
      (DialogHistory.__init__ 2)
  ∧ DialogHistory.max_messages
      (DialogHistory.run [GetHistory 7; GetMessageCount 8] (DialogHistory.__init__ 2))
    = DialogHistory.max_messages (DialogHistory.__init__ 2)
  ∧ (∀ v, entries v
            (DialogHistory.run [GetHistory 7; GetMessageCount 8]
               (DialogHistory.__init__ 2))
          = entries v (DialogHistory.__init__ 2))
  ∧ (∀ v, DialogHistory._history (DialogHistory.__init__ 2) !! v = None →
          (DialogHistory.step (GetHistory v) (DialogHistory.__init__ 2)).2
          ≠ DialogHistory.__init__ 2
          ∧ (DialogHistory.step (GetMessageCount v) (DialogHistory.__init__ 2)).2
            ≠ DialogHistory.__init__ 2).
Proof.
  apply (reads_change_no_answer [GetHistory 7; GetMessageCount 8]
           [AddMessage 7 "user" "a"; GetHistory 7; GetMessageCount 8]
           (DialogHistory.__init__ 2)).
  repeat constructor.
Defined.

(** ** Interleaved calls, once they have all finished *)

Lemma suffix_window {A} (n : Z) (l log : list A) :
  0 ≤ n →
  l `suffix_of` log →
  Z.min n (Z.of_nat (length log)) ≤ Z.of_nat (length l) ≤ n →
  l = window n log.
Proof.
  intros Hn [k ->] Hlen. unfold window, keep_last.
  rewrite (proj2 (Z.ltb_ge _ _)) by done.
  rewrite length_app in *.
  destruct (decide (length k = 0)%nat) as [Hk|Hk].
  - apply length_zero_iff_nil in Hk as ->. simpl.
    replace (length l - Z.to_nat n)%nat with 0%nat by lia. by rewrite drop_0.
  - replace (length k + length l - Z.to_nat n)%nat with (length k) by lia.
    by rewrite drop_app_length.
Qed.

Lemma log_inv_resume max_messages user_id cfg i log :
  0 ≤ max_messages →
  loop_inv max_messages cfg →
  log_inv max_messages user_id cfg log →
  log_inv max_messages user_id (resume cfg i)
    match tasks cfg !! i with
    | Some (st :: _) => statement_log user_id log st
    | _ => log
    end.
Proof.
  intros Hmax (Hwf & Hok & _) [Hsuffix Hlen]. unfold resume.
  destruct (tasks cfg !! i) as [task|] eqn:Hi; [|done].
  pose proof (Forall_lookup_1 _ _ _ _ Hok Hi) as Htask.
  destruct task as [|st rest]; [done|].
  destruct st as [now v role content|v n|v|v|v|]; simpl in *; try done.
  - rewrite CHECK_role_Literal.
    destruct (Literal_user_assistant role) eqn:Hrole.
    + destruct (insert_message_accepted now v role content (conn cfg) Hrole)
        as (db' & -> & _ & Hmsgs & _). unfold log_inv. simpl.
      unfold user_rows in *. rewrite Hmsgs, filter_app, filter_cons, filter_nil.
      simpl. case_decide as Hv; simpl.
      * rewrite fmap_app, !length_app. simpl. split; [by apply suffix_app|lia].
      * by rewrite app_nil_r.
    + rewrite insert_message_rejected by done. simpl. by case_decide.
  - destruct rest as [|[] []]; try done. subst n. unfold log_inv. simpl.
    destruct (decide (v = user_id)) as [->|Hv].
    + rewrite delete_old_messages_user by done. split.
      * etrans; [|exact Hsuffix].
        rewrite window_fmap. apply window_suffix.
      * rewrite window_length by done. lia.
    + by rewrite delete_old_messages_other.
  - unfold log_inv. simpl. case_decide as Hv.
    + subst v. rewrite delete_messages_user. simpl. split; [done|lia].
    + by rewrite delete_messages_other.
Qed.

Lemma log_inv_schedule max_messages user_id order cfg log :
  0 ≤ max_messages →
  loop_inv max_messages cfg →
  log_inv max_messages user_id cfg log →
  log_inv max_messages user_id (schedule order cfg)
    (scheduled_log user_id order cfg log).
Proof.
  intros Hmax. revert cfg log.
  induction order as [|i order IH]; intros cfg log Hloop Hlog; [done|].
  simpl. apply IH; [by apply loop_inv_resume|by apply log_inv_resume].
Qed.

Lemma in_flight_finished user_id pool :
  Forall (λ task, task = []) pool → in_flight user_id pool = 0.
Proof.
  intros Hdone. unfold in_flight.
  rewrite filter_none; [done|]. eapply Forall_impl; [exact Hdone|].
  by intros task ->.
Qed.

(** However the event loop orders the statements of any calls started on
    a fresh store with [max_messages] not negative, once every call has
    finished each user is left with the window over the messages in the
    order their INSERTs ran, counted from the last DELETE of a [clear]:
    what running the calls one after another in that order leaves.  So no
    message stays beyond the limit and none within it is lost. *)
Theorem finished_calls_leave_window max_messages cs order user_id :
  0 ≤ max_messages →
  Forall (λ task, task = [])
    (tasks (schedule order (spawn max_messages cs empty_database))) →
  SQLiteDialogHistory.execute (SelectHistory user_id)
    (conn (schedule order (spawn max_messages cs empty_database)))
  = Ok (conn (schedule order (spawn max_messages cs empty_database)),
        History (window max_messages
                   (scheduled_log user_id order
                      (spawn max_messages cs empty_database) [])))
  ∧ SQLiteDialogHistory.count_messages user_id
      (conn (schedule order (spawn max_messages cs empty_database)))
    ≤ max_messages.
Proof.
  intros Hmax Hdone.
  pose proof (loop_inv_spawn max_messages cs Hmax) as Hloop0.
  pose proof (loop_inv_schedule max_messages order _ Hmax Hloop0)
    as (Hwf & _ & Hbound).
  assert (log_inv max_messages user_id (spawn max_messages cs empty_database) [])
    as Hlog0.
  { split; [done|]. simpl. lia. }
  destruct (log_inv_schedule max_messages user_id order _ [] Hmax Hloop0 Hlog0)
    as [Hsuffix Hlen].
  specialize (Hbound user_id).
  rewrite (in_flight_finished _ _ Hdone), count_messages_user_rows in Hbound.
  split; [|rewrite count_messages_user_rows; lia].
  simpl. rewrite select_history_rows_wf by done. do 3 f_equal.
  apply suffix_window; [done|done|].
  rewrite length_fmap. lia.
Qed.

Lemma finished_calls_leave_window_witness :
  SQLiteDialogHistory.execute (SelectHistory 42)
    (conn (schedule [0; 1; 0; 1; 0; 1]%nat
             (spawn 1
                [(1, AddMessage 42 "user" "a"); (2, AddMessage 42 "assistant" "b")]
                empty_database)))
  = Ok (conn (schedule [0; 1; 0; 1; 0; 1]%nat
                (spawn 1
                   [(1, AddMessage 42 "user" "a"); (2, AddMessage 42 "assistant" "b")]
                   empty_database)),
        History (window 1
                   (scheduled_log 42 [0; 1; 0; 1; 0; 1]%nat
                      (spawn 1
                         [(1, AddMessage 42 "user" "a");
                          (2, AddMessage 42 "assistant" "b")]
                         empty_database) [])))
  ∧ SQLiteDialogHistory.count_messages 42
      (conn (schedule [0; 1; 0; 1; 0; 1]%nat
               (spawn 1
                  [(1, AddMessage 42 "user" "a"); (2, AddMessage 42 "assistant" "b")]
                  empty_database)))
    ≤ 1.
Proof.
  apply (finished_calls_leave_window 1); [lia|].
  vm_compute. repeat constructor.
Defined.

(** ** Commits of interleaved calls *)

Lemma committed_prefix order cfg file :
  committed order cfg file = file
  ∨ ∃ k, (k ≤ length order)%nat
         ∧ committed order cfg file = conn (schedule (take k order) cfg).
Proof.
  revert cfg file. induction order as [|i order IH]; intros cfg file; [by left|].
  simpl.
  destruct (IH (resume cfg i)
              match tasks cfg !! i with
              | Some (Commit :: _) => conn cfg
              | _ => file
              end) as [->|(k & Hk & ->)].
  - destruct (tasks cfg !! i) as [[|[] rest]|]; try by left.
    right. exists 0%nat. split; [lia|done].
  - right. exists (S k). split; [lia|done].
Qed.

(** Under any interleaving the file holds a state the connection went
    through: the one at the last commit, whichever call awaited it, or the
    one the calls started on.  So, started on a database within the limit,
    the messages of a user in the file number at most [max_messages] plus
    the calls to [add_message] for that user that were between their INSERT
    and their DELETE at that point, and they can exceed [max_messages]:
    with a limit of 1, the commit of a [clear] for another user writes the
    INSERT of a second [add_message] before its DELETE has run, and the
    file holds two messages of the user. *)
Theorem commit_writes_whatever_ran max_messages db cs order user_id :
  0 ≤ max_messages →
  SQLiteDialogHistory.wf db →
  (∀ v, SQLiteDialogHistory.count_messages v db ≤ max_messages) →
  (∃ k,
     (k ≤ length order)%nat
     ∧ committed order (spawn max_messages cs db) db
       = conn (schedule (take k order) (spawn max_messages cs db))
     ∧ SQLiteDialogHistory.count_messages user_id
         (committed order (spawn max_messages cs db) db)
       ≤ max_messages
         + SQLiteDialogHistory.in_flight user_id
             (tasks (schedule (take k order) (spawn max_messages cs db))))
  ∧ SQLiteDialogHistory.count_messages 42
      (committed [0; 0; 0; 1; 2; 2]%nat
         (spawn 1
            [(1, AddMessage 42 "user" "a"); (2, AddMessage 42 "assistant" "b");
             (3, Clear 7)]
            empty_database)
         empty_database)
    = 2
  ∧ tasks
      (schedule [0; 0; 0; 1; 2; 2]%nat
         (spawn 1
            [(1, AddMessage 42 "user" "a"); (2, AddMessage 42 "assistant" "b");
             (3, Clear 7)]
            empty_database))
    = [[]; [DeleteOldMessages 42 1; Commit]; []].
Proof.
  intros Hmax Hwf Hdb. split; [|split; by vm_compute].
  assert (∃ k, (k ≤ length order)%nat
               ∧ committed order (spawn max_messages cs db) db
                 = conn (schedule (take k order) (spawn max_messages cs db)))
    as (k & Hk & Heq).
  { destruct (committed_prefix order (spawn max_messages cs db) db)
      as [->|(k & Hk & ->)]; [exists 0%nat|exists k]; (split; [lia|done]). }
  exists k. split; [done|]. split; [done|]. rewrite Heq.
  by destruct (loop_inv_schedule max_messages (take k order)
                 (spawn max_messages cs db) Hmax
                 (loop_inv_spawn_on max_messages cs db Hwf Hdb)) as (_ & _ & Hbound).
Qed.

Lemma commit_writes_whatever_ran_witness :
  (∃ k,
     (k ≤ length [0; 0; 0; 1; 2; 2]%nat)%nat
     ∧ committed [0; 0; 0; 1; 2; 2]%nat
         (spawn 1
            [(1, AddMessage 42 "user" "a"); (2, AddMessage 42 "assistant" "b");
             (3, Clear 7)]
            empty_database)
         empty_database
       = conn (schedule (take k [0; 0; 0; 1; 2; 2]%nat)
                 (spawn 1
                    [(1, AddMessage 42 "user" "a");
                     (2, AddMessage 42 "assistant" "b"); (3, Clear 7)]
                    empty_database))
     ∧ SQLiteDialogHistory.count_messages 42
         (committed [0; 0; 0; 1; 2; 2]%nat
            (spawn 1
               [(1, AddMessage 42 "user" "a"); (2, AddMessage 42 "assistant" "b");
                (3, Clear 7)]
               empty_database)
            empty_database)
       ≤ 1 + SQLiteDialogHistory.in_flight 42
               (tasks (schedule (take k [0; 0; 0; 1; 2; 2]%nat)
                         (spawn 1
                            [(1, AddMessage 42 "user" "a");
                             (2, AddMessage 42 "assistant" "b"); (3, Clear 7)]
                            empty_database))))
  ∧ SQLiteDialogHistory.count_messages 42
      (committed [0; 0; 0; 1; 2; 2]%nat
         (spawn 1
            [(1, AddMessage 42 "user" "a"); (2, AddMessage 42 "assistant" "b");
             (3, Clear 7)]
            empty_database)
         empty_database)
    = 2
  ∧ tasks
      (schedule [0; 0; 0; 1; 2; 2]%nat
         (spawn 1
            [(1, AddMessage 42 "user" "a"); (2, AddMessage 42 "assistant" "b");
             (3, Clear 7)]
            empty_database))
    = [[]; [DeleteOldMessages 42 1; Commit]; []].
Proof.
  apply (commit_writes_whatever_ran 1 empty_database
           [(1, AddMessage 42 "user" "a"); (2, AddMessage 42 "assistant" "b");
            (3, Clear 7)]
           [0; 0; 0; 1; 2; 2]%nat 42).
  - lia.
  - split; simpl; constructor.
  - intros v. unfold SQLiteDialogHistory.count_messages. simpl. lia.
Defined.

(** ** The message log *)

Lemma occurrences_app c s1 s2 :
  HistoryLogger.occurrences c (s1 +:+ s2)
  = (HistoryLogger.occurrences c s1 + HistoryLogger.occurrences c s2)%nat.
Proof. induction s1 as [|c' s1 IH]; simpl; [done|]. rewrite IH. lia. Qed.

Lemma occurrences_replace old new s :
  old ≠ new → HistoryLogger.occurrences old (HistoryLogger.replace old new s) = 0%nat.
Proof.
  intros Hne. induction s as [|c s IH]; simpl; [done|]. rewrite IH.
  repeat case_decide; simplify_eq; done.
Qed.

Lemma occurrences_replace_other c old new s :
  c ≠ new →
  HistoryLogger.occurrences c s = 0%nat →
  HistoryLogger.occurrences c (HistoryLogger.replace old new s) = 0%nat.
Proof.
  intros Hne. induction s as [|c' s IH]; simpl; [done|].
  repeat case_decide; simplify_eq; try done; intros; apply IH; lia.
Qed.

Lemma replace_absent old new s :
  HistoryLogger.occurrences old s = 0%nat → HistoryLogger.replace old new s = s.
Proof.
  induction s as [|c s IH]; simpl; [done|].
  case_decide; [lia|]. intros Hs. by rewrite IH.
Qed.

Lemma length_replace old new s :
  String.length (HistoryLogger.replace old new s) = String.length s.
Proof. induction s as [|c s IH]; simpl; [done|]. by rewrite IH. Qed.

Lemma string_app_cons c (s1 s2 : string) : String c s1 +:+ s2 = String c (s1 +:+ s2).
Proof. done. Qed.

Lemma string_app_assoc (s1 s2 s3 : string) : (s1 +:+ s2) +:+ s3 = s1 +:+ s2 +:+ s3.
Proof.
  induction s1 as [|c s1 IH]; [done|]. by rewrite !string_app_cons, IH.
Qed.

Lemma string_app_length (s1 s2 : string) :
  String.length (s1 +:+ s2) = (String.length s1 + String.length s2)%nat.
Proof.
  induction s1 as [|c s1 IH]; [done|]. rewrite string_app_cons. simpl.
  by rewrite IH.
Qed.

Lemma string_app_inj_r (a b s : string) : a +:+ s = b +:+ s → a = b.
Proof.
  revert b. induction a as [|c a IH]; intros [|c' b] Heq.
  - done.
  - apply (f_equal String.length) in Heq.
    rewrite !string_app_length in Heq. simpl in Heq. lia.
  - apply (f_equal String.length) in Heq.
    rewrite !string_app_length in Heq. simpl in Heq. lia.
  - rewrite !string_app_cons in Heq. injection Heq as -> Heq.
    f_equal. by apply IH.
Qed.

Lemma occurrences_pretty_N_go (x : N) s :
  HistoryLogger.occurrences " " s = 0%nat →
  HistoryLogger.occurrences " " (pretty_N_go x s) = 0%nat.
Proof.
  revert s. induction (N.lt_wf_0 x) as [x _ IH]; intros s Hs.
  assert (x = 0 ∨ 0 < x)%N as [->|Hpos] by lia.
  - by rewrite pretty_N_go_0.
  - rewrite pretty_N_go_step by done. apply IH; [by apply N.div_lt|].
    simpl. rewrite Hs. unfold pretty_N_char. by repeat case_match.
Qed.

Lemma occurrences_pretty_N (x : N) :
  HistoryLogger.occurrences " " (pretty x) = 0%nat.
Proof.
  unfold pretty, pretty_N. case_decide; [done|].
  by apply occurrences_pretty_N_go.
Qed.

(** The decimal numeral of a user id holds no space. *)
Lemma occurrences_pretty_Z (z : Z) :
  HistoryLogger.occurrences " " (pretty z) = 0%nat.
Proof.
  destruct z as [|x|x]; [done|apply (occurrences_pretty_N (Npos x))|].
  change (pretty (Zneg x)) with ("-" +:+ pretty (Npos x)).
  rewrite occurrences_app, (occurrences_pretty_N (Npos x)). done.
Qed.

(** What follows the last space of a string determines it. *)
Lemma after_last_space u1 u2 a b :
  HistoryLogger.occurrences " " a = 0%nat →
  HistoryLogger.occurrences " " b = 0%nat →
  u1 +:+ String " " a = u2 +:+ String " " b → a = b.
Proof.
  intros Ha Hb. revert u2.
  induction u1 as [|c u1 IH]; intros [|c' u2] Heq;
    rewrite ?string_app_cons in Heq; simpl in Heq.
  - by injection Heq.
  - injection Heq as _ Heq. rewrite Heq, occurrences_app in Ha.
    simpl in Ha. lia.
  - injection Heq as _ Heq. rewrite <- Heq, occurrences_app in Hb.
    simpl in Hb. lia.
  - injection Heq as _ Heq. by apply IH in Heq.
Qed.

Lemma filename_named c name user_id :
  HistoryLogger.filename (Some (String c name)) user_id
  = (String c name +:+ " -") +:+ String " " (pretty user_id +:+ ".txt").
Proof. unfold HistoryLogger.filename. by rewrite string_app_assoc. Qed.

Lemma occurrences_numeral_txt (user_id : Z) :
  HistoryLogger.occurrences " " (pretty user_id +:+ ".txt") = 0%nat.
Proof. by rewrite occurrences_app, occurrences_pretty_Z. Qed.

Lemma get_replace old new i s :
  String.get i (HistoryLogger.replace old new s)
  = (λ c, if decide (c = old) then new else c) <$> String.get i s.
Proof.
  revert i. induction s as [|c s IH]; intros i; [done|].
  destruct i as [|i]; simpl; [done|]. apply IH.
Qed.

(** The line [log_message] appends holds the text character by character,
    with each LF and each CR replaced by a space and every other character
    as it is and where it was (so a text with neither is logged as it is,
    and the length never changes), and it ends in the one LF it contains
    beyond those of the timestamp: a message never spreads over several
    lines of the log. *)
Theorem log_message_one_line timestamp text :
  (∀ i, String.get i (HistoryLogger.safe_text text)
        = (λ c, if decide (c = HistoryLogger.LF ∨ c = HistoryLogger.CR)
                then " "%char else c) <$> String.get i text)
  ∧ HistoryLogger.log_entry timestamp text
    = timestamp +:+ ", " +:+ HistoryLogger.safe_text text
        +:+ String HistoryLogger.LF EmptyString
  ∧ HistoryLogger.occurrences HistoryLogger.LF (HistoryLogger.safe_text text) = 0%nat
  ∧ HistoryLogger.occurrences HistoryLogger.CR (HistoryLogger.safe_text text) = 0%nat
  ∧ String.length (HistoryLogger.safe_text text) = String.length text
  ∧ (HistoryLogger.occurrences HistoryLogger.LF text = 0%nat →
     HistoryLogger.occurrences HistoryLogger.CR text = 0%nat →
     HistoryLogger.safe_text text = text)
  ∧ HistoryLogger.occurrences HistoryLogger.LF (HistoryLogger.log_entry timestamp text)
    = (HistoryLogger.occurrences HistoryLogger.LF timestamp + 1)%nat.
Proof.
  assert (HistoryLogger.occurrences HistoryLogger.LF (HistoryLogger.safe_text text)
          = 0%nat) as Hlf.
  { apply occurrences_replace_other; [done|]. by apply occurrences_replace. }
  split; [|split; [done|]].
  { intros i. unfold HistoryLogger.safe_text. rewrite !get_replace.
    destruct (String.get i text) as [c|]; [|done]. simpl. f_equal.
    repeat case_decide; subst; try done; exfalso; tauto. }
  split; [done|]. split; [|split; [|split]].
  - by apply occurrences_replace.
  - unfold HistoryLogger.safe_text. by rewrite !length_replace.
  - intros Hlf' Hcr. unfold HistoryLogger.safe_text.
    rewrite (replace_absent HistoryLogger.LF) by done.
    by apply replace_absent.
  - unfold HistoryLogger.log_entry. rewrite !occurrences_app, Hlf. done.
Qed.

(** The name of the file [log_message] appends to determines the user id,
    whatever the user names are (spaces and dashes in them included, and a
    user without a name against one with a name): two users never share a
    log file. *)
Theorem log_file_per_user username1 username2 id1 id2 :
  HistoryLogger.filename username1 id1 = HistoryLogger.filename username2 id2 →
  id1 = id2.
Proof.
  assert (∀ id id' : Z, pretty id +:+ ".txt" = pretty id' +:+ ".txt" → id = id')
    as Hplain.
  { intros id id' Heq%string_app_inj_r. by apply (inj pretty). }
  assert (∀ c name (id id' : Z),
    HistoryLogger.filename (Some (String c name)) id ≠ pretty id' +:+ ".txt")
    as Hmixed.
  { intros c name id id' Heq.
    pose proof (occurrences_numeral_txt id') as Hnone.
    rewrite <- Heq, filename_named, occurrences_app in Hnone.
    simpl in Hnone. lia. }
  destruct username1 as [[|c1 name1]|], username2 as [[|c2 name2]|];
    try (by apply Hplain);
    try (by intros Heq; destruct (Hmixed _ _ _ _ Heq));
    try (by intros Heq; symmetry in Heq; destruct (Hmixed _ _ _ _ Heq)).
  rewrite !filename_named. intros Heq.
  apply after_last_space in Heq; auto using occurrences_numeral_txt.
Qed.

Lemma log_file_per_user_witness :
  HistoryLogger.filename (Some EmptyString) 2 = HistoryLogger.filename None 2
  ∧ (2 : Z) = 2.
Proof.
  split; [reflexivity|].
  apply (log_file_per_user (Some EmptyString) None). reflexivity.
Defined.
